(** * Gemini CLI documentation fetcher: a shallow embedding of
    [scripts/fetch_gemini_docs.py] and the properties of its
    fetch / validate / diff / persist loop.

    Python [str] values are modelled as [string]; every [ascii] stands
    for one character (code points 0..255), so [len], slicing and
    [strip] count characters as Python does.

    The output directory is a finite map from file names to texts, and
    the manifest file is one of its files.  The network is given by
    the result of every request; the effects of a call ([time.sleep],
    warnings) are collected in a trace.  Writing and removing a file
    always succeed, and a rate-limit header that is present holds an
    integer that [int] and [time.sleep] accept. *)

From Stdlib Require Import ZArith Ascii String List Bool Lia Sorted Permutation.
From stdpp Require Import base gmap sets list strings.

Local Open Scope Z_scope.
Local Open Scope nat_scope.

Set Warnings "-clear-no-such-hyp".
Set Default Proof Using "Type".

(** ** Python string operations used by the script *)

Module Py.

(** [len(s)] *)
Definition len (s : string) : nat := String.length s.

(** [s.startswith(p)] *)
Fixpoint startswith (s p : string) {struct p} : bool :=
  match p with
  | EmptyString => true
  | String a p' =>
      match s with
      | EmptyString => false
      | String b s' => Ascii.eqb b a && startswith s' p'
      end
  end.

(** [s[n:]] for [n >= 0] *)
Fixpoint slice_from (n : nat) (s : string) : string :=
  match n, s with
  | O, _ => s
  | S _, EmptyString => EmptyString
  | S n', String _ s' => slice_from n' s'
  end.

(** [s[:n]] for [n >= 0] *)
Fixpoint slice_to (n : nat) (s : string) : string :=
  match n, s with
  | O, _ => EmptyString
  | S _, EmptyString => EmptyString
  | S n', String c s' => String c (slice_to n' s')
  end.

(** [s[:-n]] for [n > 0]: everything but the last [n] characters, the
    empty string when [s] is shorter than [n]. *)
Definition slice_to_neg (n : nat) (s : string) : string :=
  slice_to (len s - n) s.

(** [s.endswith(suf)] *)
Definition endswith (s suf : string) : bool :=
  String.eqb (slice_from (len s - len suf) s) suf.

(** [p in s] on strings: [p] occurs in [s] as a substring. *)
Fixpoint contains (s p : string) : bool :=
  startswith s p ||
  match s with
  | EmptyString => false
  | String _ s' => contains s' p
  end.

(** [s.replace(old, new)] for a non-empty [old]: occurrences are found
    left to right and do not overlap.  [skip] counts the characters of
    the occurrence just replaced that are still to be passed over. *)
Fixpoint replace_from (old new : string) (skip : nat) (s : string) : string :=
  match s with
  | EmptyString => EmptyString
  | String c s' =>
      match skip with
      | S k => replace_from old new k s'
      | O =>
          if startswith s old
          then new +:+ replace_from old new (len old - 1) s'
          else String c (replace_from old new 0 s')
      end
  end.

Definition replace (s old new : string) : string := replace_from old new 0 s.

End Py.

Module PyText.

(** [c.isspace()] for a character below U+0100: the characters that
    [str.strip()] removes. *)
Definition isspace (c : ascii) : bool :=
  let n := nat_of_ascii c in
  ((9 <=? n) && (n <=? 13)) || ((28 <=? n) && (n <=? 32)) ||
  (n =? 133) || (n =? 160).

(** [s.lstrip()] *)
Fixpoint lstrip (s : string) : string :=
  match s with
  | EmptyString => EmptyString
  | String c s' => if isspace c then lstrip s' else s
  end.

(** [s.rstrip()] *)
Fixpoint rstrip (s : string) : string :=
  match s with
  | EmptyString => EmptyString
  | String c s' =>
      match rstrip s' with
      | EmptyString => if isspace c then EmptyString else String c EmptyString
      | String d r => String c (String d r)
      end
  end.

(** [s.strip()] *)
Definition strip (s : string) : string := rstrip (lstrip s).

(** [s.split(sep)] for a one-character separator: always at least one
    piece, empty pieces are kept. *)
Fixpoint split (s : string) (sep : ascii) : list string :=
  match s with
  | EmptyString => [EmptyString]
  | String c s' =>
      if Ascii.eqb c sep then EmptyString :: split s' sep
      else match split s' sep with
           | piece :: rest => String c piece :: rest
           | [] => [String c EmptyString]
           end
  end.

End PyText.

(** ** Configuration constants *)

Definition MANIFEST_FILE : string := "docs_manifest.json".
Definition MAX_RETRIES : nat := 3.
Definition RETRY_DELAY : Z := 2.
Definition MAX_RETRY_DELAY : Z := 30.

(** ** Logical file names *)

(** [path_to_safe_filename]: [docs/cli/commands.md -> cli__commands.md]. *)
Definition path_to_safe_filename (file_path : string) : string :=
  let file_path :=
    if Py.startswith file_path "docs/" then Py.slice_from 5 file_path
    else file_path in
  let file_path :=
    if Py.endswith file_path ".md" then Py.slice_to_neg 3 file_path
    else file_path in
  let safe_name := Py.replace file_path "/" "__" in
  safe_name +:+ ".md".

(** The filter of the discovery call: an origin path is a path under
    [docs/] that ends in [.md]. *)
Definition is_origin_path (path : string) : bool :=
  Py.startswith path "docs/" && Py.endswith path ".md".

(** The normalized form of an origin path: the path without the [docs/]
    prefix and without the [.md] suffix. *)
Definition normalized_path (file_path : string) : string :=
  Py.slice_to_neg 3 (Py.slice_from 5 file_path).

(** Undoing the separator transform on a logical name:
    [name[:-3].replace('__', '/')]. *)
Definition recover_normalized (name : string) : string :=
  Py.replace (Py.slice_to_neg 3 name) "__" "/".

(** An underscore directly followed by an underscore or by a separator
    makes the separator transform ambiguous. *)
Definition separator_safe (path : string) : bool :=
  negb (Py.contains path "__") && negb (Py.contains path "_/").

(** ** Exceptions and results *)

(** The reasons [validate_markdown_content] gives. *)
Inductive validation_error :=
| ReceivedHTML                         (* "Received HTML instead of markdown" *)
| ContentTooShort (bytes : nat)        (* "Content too short (N bytes)" *)
| NotMarkdown (indicators : nat).      (* "... (only N indicators)" *)

(** The exceptions the script raises or lets through. *)
Inductive exn :=
| ValueError (reason : validation_error)
| RateLimitExceeded              (* Exception("GitHub API rate limit exceeded") *)
| DiscoverFailed (attempts : nat) (* Exception("Failed to discover docs after N attempts: ...") *)
| FetchFailedAfter (filename : string) (attempts : nat)
                                 (* Exception("Failed to fetch F after N attempts: ...") *)
| FetchFailed (filename : string). (* Exception("Failed to fetch F") *)

Inductive outcome (A : Type) :=
| Return (a : A)
| Raise (e : exn).
Arguments Return {A} a.
Arguments Raise {A} e.


(** ** Content validator *)

Definition markdown_patterns : list string :=
  ["# "; "## "; "### "; "```"; "- "; "* "; "1. "; "["; "**"; "_"; "> "].

(** The lines the validator looks at: [content.split('\n')[:50]]. *)
Definition scanned_lines (content : string) : list string :=
  firstn 50 (PyText.split content "010").

(** The generator of the [sum]: one element per pair of a scanned line
    and a pattern that occurs in it. *)
Definition indicators (content : string) : list string :=
  flat_map (fun line => List.filter (fun p => Py.contains line p) markdown_patterns)
           (scanned_lines content).

Definition indicator_count (content : string) : nat := length (indicators content).

(** The first test: [not content or content.startswith('<!DOCTYPE') or
    '<html' in content[:100]]. *)
Definition looks_like_html (content : string) : bool :=
  String.eqb content "" || Py.startswith content "<!DOCTYPE" ||
  Py.contains (Py.slice_to 100 content) "<html".

Definition validate_markdown_content (content filename : string) : outcome unit :=
  if looks_like_html content then Raise (ValueError ReceivedHTML)
  else if Py.len (PyText.strip content) <? 50
  then Raise (ValueError (ContentTooShort (Py.len content)))
  else
    if indicator_count content <? 2
    then Raise (ValueError (NotMarkdown (indicator_count content)))
    else Return tt.

(** ** HTTP responses, time and the event trace *)

(** The two headers the script reads, as [int(...)] reads them: [None]
    when the header is absent (or empty). *)
Record headers := {
  x_ratelimit_reset : option Z;
  retry_after : option Z
}.

Definition no_headers : headers :=
  {| x_ratelimit_reset := None; retry_after := None |}.

(** What [session.get(url, headers=..., timeout=30)] does: it raises a
    [requests.exceptions.RequestException] (timeout, connection error)
    or returns a response with a status code, headers and a body
    ([response.json()] for the tree call, [response.text] otherwise). *)
Inductive http_result (B : Type) :=
| RequestFailed
| Response (status_code : Z) (hdrs : headers) (body : B).
Arguments RequestFailed {B}.
Arguments Response {B} status_code hdrs body.

(** [response.raise_for_status()] raises an [HTTPError], which is a
    [RequestException], for the statuses 400..599. *)
Definition is_http_error (status_code : Z) : bool :=
  (400 <=? status_code)%Z && (status_code <? 600)%Z.

Inductive log_message :=
| WarnRateLimited (wait_time : Z)
| WarnAttemptFailed (attempt : nat)
| ErrorValidationFailed (filename : string)
| WarnChangelogTooShort
| WarnChangelogFailed
| WarnManifestLoadFailed
| ErrorDiscoverFailed
| ErrorNoDocsDiscovered
| ErrorProcessFailed (file_path : string)
| ErrorNothingFetched.

(** Observable effects, in the order in which they happen. *)
Inductive event :=
| Get (url : string)
| Sleep (seconds : Z)      (* [time.sleep(wait_time)] *)
| Backoff (delay : Z)      (* [time.sleep(delay * random.uniform(0.5, 1.0))] *)
| CourtesyDelay            (* [time.sleep(RATE_LIMIT_DELAY)] *)
| Log (msg : log_message).

(** A computation that has effects and may raise. *)
Definition io (A : Type) : Type := list event * outcome A.

Definition emit {A} (e : event) (k : io A) : io A := (e :: fst k, snd k).
Definition ret {A} (a : A) : io A := ([], Return a).
Definition throw {A} (e : exn) : io A := ([], Raise e).

(** [min(RETRY_DELAY * (2 ** attempt), MAX_RETRY_DELAY)] *)
Definition backoff_delay (attempt : nat) : Z :=
  Z.min (RETRY_DELAY * 2 ^ Z.of_nat attempt) MAX_RETRY_DELAY.

Definition GITHUB_API_BASE : string :=
  "https://api.github.com/repos/google-gemini/gemini-cli".
Definition GITHUB_RAW_BASE : string :=
  "https://raw.githubusercontent.com/google-gemini/gemini-cli/main".
Definition tree_url : string := GITHUB_API_BASE +:+ "/git/trees/main?recursive=1".

(** ** Discovery *)

(** An entry of the [tree] list; an absent key reads as the empty string. *)
Record tree_item := { path : string; type : string }.

(** [sorted(docs_files)]: insertion into a list ordered by code points. *)
Fixpoint insert_sorted (x : string) (l : list string) : list string :=
  match l with
  | [] => [x]
  | y :: l' => if String.leb x y then x :: l else y :: insert_sorted x l'
  end.

Definition sorted (l : list string) : list string :=
  fold_right insert_sorted [] l.

(** Only markdown files in the [docs/] directory. *)
Definition docs_files (tree : list tree_item) : list string :=
  map path
    (List.filter
       (fun item => String.eqb (type item) "blob" &&
                    Py.startswith (path item) "docs/" &&
                    Py.endswith (path item) ".md")
       tree).

(** The loop [for attempt in range(MAX_RETRIES)] of
    [discover_docs_from_github]; [get attempt] is the result of the
    request made in iteration [attempt], [time attempt] is
    [int(time.time())] there.  A [continue] goes on with the remaining
    values of [attempt]. *)
Fixpoint discover_attempts (get : nat -> http_result (list tree_item))
    (time : nat -> Z) (attempts : list nat) : io (list string) :=
  match attempts with
  | [] => ret []
  | attempt :: rest =>
      let on_request_exception : io (list string) :=
        emit (Log (WarnAttemptFailed attempt))
          (if attempt <? MAX_RETRIES - 1
           then emit (Backoff (backoff_delay attempt))
                     (discover_attempts get time rest)
           else throw (DiscoverFailed MAX_RETRIES)) in
      emit (Get tree_url)
        match get attempt with
        | RequestFailed => on_request_exception
        | Response status_code hdrs data =>
            if (status_code =? 403)%Z then
              match x_ratelimit_reset hdrs with
              | Some reset_time =>
                  let wait_time := (reset_time - time attempt + 1)%Z in
                  emit (Log (WarnRateLimited wait_time))
                    (if (0 <? wait_time)%Z && (wait_time <? 300)%Z
                     then emit (Sleep wait_time)
                               (discover_attempts get time rest)
                     else throw RateLimitExceeded)
              | None => throw RateLimitExceeded
              end
            else if is_http_error status_code then on_request_exception
            else ret (sorted (docs_files data))
        end
  end.

Definition discover_docs_from_github (get : nat -> http_result (list tree_item))
    (time : nat -> Z) : io (list string) :=
  discover_attempts get time (seq 0 MAX_RETRIES).

(** ** Fetching one file *)

Definition raw_url (file_path : string) : string :=
  GITHUB_RAW_BASE +:+ "/" +:+ file_path.

Fixpoint fetch_attempts (file_path filename : string)
    (get : nat -> http_result string) (attempts : list nat)
    : io (string * string) :=
  match attempts with
  | [] => throw (FetchFailed filename)
  | attempt :: rest =>
      let on_request_exception : io (string * string) :=
        emit (Log (WarnAttemptFailed attempt))
          (if attempt <? MAX_RETRIES - 1
           then emit (Backoff (backoff_delay attempt))
                     (fetch_attempts file_path filename get rest)
           else throw (FetchFailedAfter filename MAX_RETRIES)) in
      emit (Get (raw_url file_path))
        match get attempt with
        | RequestFailed => on_request_exception
        | Response status_code hdrs content =>
            if (status_code =? 429)%Z then
              let wait_time := default 60%Z (retry_after hdrs) in
              emit (Log (WarnRateLimited wait_time))
                (emit (Sleep wait_time)
                      (fetch_attempts file_path filename get rest))
            else if is_http_error status_code then on_request_exception
            else
              match validate_markdown_content content filename with
              | Raise e => emit (Log (ErrorValidationFailed filename)) (throw e)
              | Return _ => ret (filename, content)
              end
        end
  end.

(** [fetch_markdown_content]: the pair of the logical name and the text. *)
Definition fetch_markdown_content (file_path : string)
    (get : nat -> http_result string) : io (string * string) :=
  fetch_attempts file_path (path_to_safe_filename file_path) get
                 (seq 0 MAX_RETRIES).

(** ** Fetching the changelog *)

Definition changelog_url : string := GITHUB_RAW_BASE +:+ "/CHANGELOG.md".
Definition changelog_filename : string := "changelog.md".

Definition nl : string := String "010" EmptyString.

Definition changelog_header : string :=
  "# Gemini CLI Changelog" +:+ nl +:+
  nl +:+
  "> **Source**: https://github.com/google-gemini/gemini-cli/blob/main/CHANGELOG.md" +:+ nl +:+
  ">" +:+ nl +:+
  "> This is the official Gemini CLI changelog, automatically fetched from the repository." +:+ nl +:+
  nl +:+
  "---" +:+ nl +:+
  nl.

Fixpoint changelog_attempts (get : nat -> http_result string)
    (attempts : list nat) : io (option (string * string)) :=
  match attempts with
  | [] => ret None
  | attempt :: rest =>
      let on_request_exception : io (option (string * string)) :=
        emit (Log (WarnAttemptFailed attempt))
          (if attempt <? MAX_RETRIES - 1
           then emit (Backoff (backoff_delay attempt))
                     (changelog_attempts get rest)
           else emit (Log WarnChangelogFailed) (ret None)) in
      emit (Get changelog_url)
        match get attempt with
        | RequestFailed => on_request_exception
        | Response status_code hdrs text =>
            if (status_code =? 404)%Z then ret None
            else if (status_code =? 429)%Z then
              let wait_time := default 60%Z (retry_after hdrs) in
              emit (Sleep wait_time) (changelog_attempts get rest)
            else if is_http_error status_code then on_request_exception
            else
              let content := changelog_header +:+ text in
              if Py.len (PyText.strip content) <? 100
              then emit (Log WarnChangelogTooShort) (ret None)
              else ret (Some (changelog_filename, content))
        end
  end.

Definition fetch_changelog (get : nat -> http_result string)
    : io (option (string * string)) :=
  changelog_attempts get (seq 0 MAX_RETRIES).

(** ** The manifest *)

(** An entry of [manifest["files"]].  In an entry read from disk a key
    may be missing ([None]); the entries the script builds have
    [original_path], [github_url], [hash] and [last_updated], and the
    changelog entry has [source] too. *)
Record manifest_entry := {
  original_path : string;
  github_url : string;
  hash : option string;
  last_updated : option string;
  source : option string
}.

(** [new_manifest["fetch_metadata"]], without the time stamps. *)
Record fetch_metadata := {
  total_files_discovered : nat;
  files_fetched_successfully : nat;
  files_failed : nat;
  failed_files : list string;
  total_files : nat
}.

(** The manifest as [main] uses it: the mapping [manifest["files"]],
    the time stamp that [save_manifest] sets and the run statistics.
    The descriptive keys of [save_manifest] ([base_url],
    [github_repository], ...) play no part in the synchronisation and
    are left out. *)
Record manifest := {
  files : gmap string manifest_entry;
  manifest_last_updated : option string;
  metadata : option fetch_metadata
}.

(** JSON values, the results of [json.loads]. *)
#[warnings="-register-all"] Inductive json :=
| JNull
| JBool (b : bool)
| JNum (n : Z)
| JStr (s : string)
| JArr (items : list json)
| JObj (members : gmap string json).

(** [{"files": {}, "last_updated": None}] *)
Definition empty_manifest : json :=
  JObj (<["files" := JObj ∅]> (<["last_updated" := JNull]> ∅)).

(** The exceptions of the [try] block of [load_manifest]. *)
Inductive load_error := JSONDecodeError | TypeError.

(** [key not in value]: membership in the keys of a dict, in the items
    of a list, substring of a string; a [TypeError] for the rest. *)
Definition py_not_in (key : string) (value : json) : load_error + bool :=
  match value with
  | JObj members => inr (negb (bool_decide (is_Some (members !! key))))
  | JArr items =>
      inr (negb (existsb (fun v => match v with
                                   | JStr s => String.eqb s key
                                   | _ => false
                                   end) items))
  | JStr s => inr (negb (Py.contains s key))
  | _ => inl TypeError
  end.

(** [value[key] = item]: only a dict takes a string key. *)
Definition py_setitem (value : json) (key : string) (item : json) : load_error + json :=
  match value with
  | JObj members => inr (JObj (<[key := item]> members))
  | _ => inl TypeError
  end.

(** ** Reading a trace *)

(** The number of requests made. *)
Definition requests (evs : list event) : nat :=
  length (List.filter (fun e => match e with Get _ => true | _ => false end) evs).

(** The rate-limit waits, in order. *)
Definition sleeps (evs : list event) : list Z :=
  flat_map (fun e => match e with Sleep s => [s] | _ => [] end) evs.

(** The backoff delays, in order. *)
Definition backoffs (evs : list event) : list Z :=
  flat_map (fun e => match e with Backoff d => [d] | _ => [] end) evs.

(** The text that the fetch of a path yields when it succeeds. *)
Definition fetched_content (get : nat -> http_result string)
    (file_path : string) : option string :=
  match snd (fetch_markdown_content file_path get) with
  | Return (_, content) => Some content
  | Raise _ => None
  end.

(** The text that the changelog step yields when it succeeds. *)
Definition fetched_changelog (get : nat -> http_result string) : option string :=
  match snd (fetch_changelog get) with
  | Return (Some (_, content)) => Some content
  | _ => None
  end.



(** The order of [sorted]: comparison of strings by code points. *)
Definition leb_true (a b : string) : Prop := String.leb a b = true.

(** A request that ends in the [except RequestException] branch: the
    request itself fails, or the status is an error status other than
    the one that the loop treats as a rate limit. *)
Definition request_error {B : Type} (rate_limit_status : Z) (r : http_result B) : Prop :=
  r = RequestFailed \/
  exists status hdrs body,
    r = Response status hdrs body /\
    is_http_error status = true /\ status <> rate_limit_status.

(** A 403 answer of the tree call that does not lead to a retry: no
    reset time, or a wait outside 1..299 seconds. *)
Definition unusable_reset (time : Z) (r : http_result (list tree_item)) : Prop :=
  exists hdrs data,
    r = Response 403 hdrs data /\
    match x_ratelimit_reset hdrs with
    | None => True
    | Some reset => (reset - time + 1 <= 0 \/ 300 <= reset - time + 1)%Z
    end.

(** A delay that the loop can wait for before a further attempt: the
    backoff delay of an attempt that is not the last one. *)
Definition small_backoff (attempts : list nat) (d : Z) : Prop :=
  exists k, In k attempts /\ k < MAX_RETRIES - 1 /\ d = backoff_delay k.


(** ** Clocks and the origin *)

(** The repository as the run sees it: for each request of a call, the
    result of that request. *)
Record origin := {
  tree_get : nat -> http_result (list tree_item);
  raw_get : string -> nat -> http_result string;
  changelog_get : nat -> http_result string
}.

(** The values of [int(time.time())] in the attempts of the discovery
    call, and of [datetime.now().isoformat()] while the [i]-th file is
    processed, while the changelog is processed and in [save_manifest]. *)
Record clock := {
  unix_time : nat -> Z;
  now_doc : nat -> string;
  now_changelog : string;
  now_save : string
}.

Section Sync.

(** [hashlib.sha256(content.encode('utf-8')).hexdigest()] *)
Variable sha256 : string -> string.

(** [json.loads], [None] when it raises, and [json.dumps(manifest,
    indent=2)] on the manifest. *)
Variable json_loads : string -> option json.
Variable json_dumps : manifest -> string.

(** ** Manifest store *)

(** The [try] block of [load_manifest]. *)
Definition load_manifest_try (text : string) : load_error + json :=
  match json_loads text with
  | None => inl JSONDecodeError
  | Some manifest =>
      match py_not_in "files" manifest with
      | inl e => inl e
      | inr true => py_setitem manifest "files" (JObj ∅)
      | inr false => inr manifest
      end
  end.

(** [load_manifest]: the directory is a mapping from file names to
    texts. *)
Definition load_manifest (docs_dir : gmap string string) : list event * json :=
  match docs_dir !! MANIFEST_FILE with
  | Some text =>
      match load_manifest_try text with
      | inr manifest => ([], manifest)
      | inl _ => ([Log WarnManifestLoadFailed], empty_manifest)
      end
  | None => ([], empty_manifest)
  end.

(** [save_manifest]: stamps [last_updated] and writes the manifest. *)
Definition save_manifest (docs_dir : gmap string string) (m : manifest)
    (now : string) : gmap string string * manifest :=
  let m' := {| files := files m;
               manifest_last_updated := Some now;
               metadata := metadata m |} in
  (<[MANIFEST_FILE := json_dumps m']> docs_dir, m').

(** ** Change detection and saving *)

Definition github_blob_url (file_path : string) : string :=
  "https://github.com/google-gemini/gemini-cli/blob/main/" +:+ file_path.

Definition content_has_changed (content old_hash : string) : bool :=
  let new_hash := sha256 content in
  negb (String.eqb new_hash old_hash).

(** [save_markdown_file]: the directory after the write, and the hash. *)
Definition save_markdown_file (docs_dir : gmap string string)
    (filename content : string) : gmap string string * string :=
  (<[filename := content]> docs_dir, sha256 content).

(** [manifest.get("files", {}).get(filename, {})] *)
Definition old_entry (m : manifest) (filename : string) : option manifest_entry :=
  files m !! filename.

(** [manifest.get("files", {}).get(filename, {}).get("hash", "")] *)
Definition old_hash (m : manifest) (filename : string) : string :=
  default "" (old_entry m filename ≫= hash).

(** The comparison that [main] makes for a document and for the
    changelog: the hash and the time stamp to record, the directory
    afterwards and the name of the file written, if one was. *)
Definition compare_and_save (m : manifest) (now filename content : string)
    (docs_dir : gmap string string)
    : string * string * gmap string string * list string :=
  if content_has_changed content (old_hash m filename)
  then
    let '(docs_dir', content_hash) := save_markdown_file docs_dir filename content in
    (content_hash, now, docs_dir', [filename])
  else
    (old_hash m filename,
     default now (old_entry m filename ≫= last_updated),
     docs_dir, []).

(** The entry recorded for a document and for the changelog. *)
Definition doc_entry (m : manifest) (now file_path content : string)
    : manifest_entry :=
  let r := compare_and_save m now (path_to_safe_filename file_path) content ∅ in
  {| original_path := file_path;
     github_url := github_blob_url file_path;
     hash := Some r.1.1.1;
     last_updated := Some r.1.1.2;
     source := None |}.

Definition changelog_entry (m : manifest) (now content : string)
    : manifest_entry :=
  let r := compare_and_save m now changelog_filename content ∅ in
  {| original_path := "CHANGELOG.md";
     github_url := github_blob_url "CHANGELOG.md";
     hash := Some r.1.1.1;
     last_updated := Some r.1.1.2;
     source := Some "gemini-cli-repository" |}.

(** ** The run *)

Record run_state := {
  disk : gmap string string;
  new_files : gmap string manifest_entry;
  fetched_files : gset string;
  successful : nat;
  failed : nat;
  failed_pages : list string;
  written : list string;
  trace : list event
}.

Definition initial_state (docs_dir : gmap string string) : run_state :=
  {| disk := docs_dir; new_files := ∅; fetched_files := ∅;
     successful := 0; failed := 0; failed_pages := []; written := [];
     trace := [] |}.

(** The body of the loop over the discovered files; [i] counts from 1
    and [total] is [len(doc_files)]. *)
Definition process_doc (o : origin) (c : clock) (m : manifest)
    (total i : nat) (file_path : string) (st : run_state) : run_state :=
  let '(evs, r) := fetch_markdown_content file_path (raw_get o file_path) in
  match r with
  | Return (filename, content) =>
      let '(content_hash, updated, docs_dir, wr) :=
        compare_and_save m (now_doc c i) filename content (disk st) in
      {| disk := docs_dir;
         new_files :=
           <[filename := {| original_path := file_path;
                            github_url := github_blob_url file_path;
                            hash := Some content_hash;
                            last_updated := Some updated;
                            source := None |}]> (new_files st);
         fetched_files := {[filename]} ∪ fetched_files st;
         successful := S (successful st);
         failed := failed st;
         failed_pages := failed_pages st;
         written := written st ++ wr;
         trace := trace st ++ evs ++
                  (if i <? total then [CourtesyDelay] else []) |}
  | Raise _ =>
      {| disk := disk st;
         new_files := new_files st;
         fetched_files := fetched_files st;
         successful := successful st;
         failed := S (failed st);
         failed_pages := failed_pages st ++ [file_path];
         written := written st;
         trace := trace st ++ evs ++ [Log (ErrorProcessFailed file_path)] |}
  end.

(** [for i, file_path in enumerate(doc_files, 1)] *)
Fixpoint process_docs (o : origin) (c : clock) (m : manifest)
    (total i : nat) (doc_files : list string) (st : run_state) : run_state :=
  match doc_files with
  | [] => st
  | file_path :: rest =>
      process_docs o c m total (S i) rest (process_doc o c m total i file_path st)
  end.

(** The changelog step. *)
Definition process_changelog (o : origin) (c : clock) (m : manifest)
    (st : run_state) : run_state :=
  let '(evs, r) := fetch_changelog (changelog_get o) in
  match r with
  | Return (Some (filename, content)) =>
      let '(content_hash, updated, docs_dir, wr) :=
        compare_and_save m (now_changelog c) filename content (disk st) in
      {| disk := docs_dir;
         new_files :=
           <[filename := {| original_path := "CHANGELOG.md";
                            github_url := github_blob_url "CHANGELOG.md";
                            hash := Some content_hash;
                            last_updated := Some updated;
                            source := Some "gemini-cli-repository" |}]>
             (new_files st);
         fetched_files := {[filename]} ∪ fetched_files st;
         successful := S (successful st);
         failed := failed st;
         failed_pages := failed_pages st;
         written := written st ++ wr;
         trace := trace st ++ evs |}
  | _ =>
      {| disk := disk st; new_files := new_files st;
         fetched_files := fetched_files st; successful := successful st;
         failed := failed st; failed_pages := failed_pages st;
         written := written st; trace := trace st ++ evs |}
  end.

(** One step of [cleanup_old_files]: the directory and the names
    unlinked so far. *)
Definition cleanup_step (filename : string)
    (acc : gmap string string * gset string) : gmap string string * gset string :=
  if String.eqb filename MANIFEST_FILE then acc
  else
    match fst acc !! filename with
    | Some _ => (delete filename (fst acc), {[filename]} ∪ snd acc)
    | None => acc
    end.

(** [cleanup_old_files]: the directory afterwards and the names of the
    files removed. *)
Definition cleanup_old_files (docs_dir : gmap string string)
    (current_files : gset string) (m : manifest)
    : gmap string string * gset string :=
  let previous_files := dom (files m) in
  let files_to_remove := previous_files ∖ current_files in
  set_fold cleanup_step (docs_dir, ∅) files_to_remove.

(** What a run leaves behind. *)
Record run_result := {
  exit_code : Z;
  final_disk : gmap string string;
  saved_manifest : option manifest;
  fetched : gset string;
  saved : list string;
  removed : gset string;
  run_trace : list event
}.

(** The state after the loop over the documents and the changelog
    step. *)
Definition fetch_all (o : origin) (c : clock) (m : manifest)
    (docs_dir : gmap string string) (doc_files : list string) : run_state :=
  let st := process_docs o c m (length doc_files) 1 doc_files
                         (initial_state docs_dir) in
  process_changelog o c m st.

(** The part of [main] after the discovery: fetch, reconcile, save the
    manifest, summarise. *)
Definition sync (o : origin) (c : clock) (m : manifest)
    (docs_dir : gmap string string) (doc_files : list string) : run_result :=
  let st := fetch_all o c m docs_dir doc_files in
  let '(docs_dir', gone) := cleanup_old_files (disk st) (fetched_files st) m in
  let new_manifest :=
    {| files := new_files st;
       manifest_last_updated := None;
       metadata := Some {| total_files_discovered := length doc_files;
                           files_fetched_successfully := successful st;
                           files_failed := failed st;
                           failed_files := failed_pages st;
                           total_files := size (fetched_files st) |} |} in
  let '(docs_dir'', stamped) := save_manifest docs_dir' new_manifest (now_save c) in
  let nothing_fetched :=
    negb (Nat.eqb (length (failed_pages st)) 0) && Nat.eqb (successful st) 0 in
  {| exit_code := if nothing_fetched then 1%Z else 0%Z;
     final_disk := docs_dir'';
     saved_manifest := Some stamped;
     fetched := fetched_files st;
     saved := written st;
     removed := gone;
     run_trace := trace st ++
                  (if nothing_fetched then [Log ErrorNothingFetched] else []) |}.

Definition exit_early (docs_dir : gmap string string) (evs : list event)
    : run_result :=
  {| exit_code := 1%Z; final_disk := docs_dir; saved_manifest := None;
     fetched := ∅; saved := []; removed := ∅; run_trace := evs |}.

(** [main], from the manifest that [load_manifest] gave and the output
    directory. *)
Definition main (o : origin) (c : clock) (m : manifest)
    (docs_dir : gmap string string) : run_result :=
  let '(evs, r) := discover_docs_from_github (tree_get o) (unix_time c) in
  match r with
  | Raise _ => exit_early docs_dir (evs ++ [Log ErrorDiscoverFailed])
  | Return [] => exit_early docs_dir (evs ++ [Log ErrorNoDocsDiscovered])
  | Return doc_files =>
      let res := sync o c m docs_dir doc_files in
      {| exit_code := exit_code res; final_disk := final_disk res;
         saved_manifest := saved_manifest res; fetched := fetched res;
         saved := saved res; removed := removed res;
         run_trace := evs ++ run_trace res |}
  end.

(** An entry that the loop records for the name [n]: it names a path
    with this logical name, and its hash is the digest of the text
    fetched from this path. *)
Definition entry_of_fetch (o : origin) (n : string) (e : manifest_entry) : Prop :=
  path_to_safe_filename (original_path e) = n /\
  github_url e = github_blob_url (original_path e) /\
  is_Some (last_updated e) /\ source e = None /\
  exists X,
    fetched_content (raw_get o (original_path e)) (original_path e) = Some X /\
    hash e = Some (sha256 X).

(** ** The descriptive keys of the manifest *)

(** The environment variables that the script reads. *)
Record environment := {
  GITHUB_TOKEN : option string;
  GITHUB_REPOSITORY : option string;
  GITHUB_REF_NAME : option string
}.

(** [\w] on a character below U+0100: letters, digits, the underscore. *)
Definition is_word (ch : ascii) : bool :=
  let n := nat_of_ascii ch in
  ((48 <=? n) && (n <=? 57)) || ((65 <=? n) && (n <=? 90)) || (n =? 95) ||
  ((97 <=? n) && (n <=? 122)) || (n =? 170) || ((178 <=? n) && (n <=? 179)) ||
  (n =? 181) || ((185 <=? n) && (n <=? 186)) || ((188 <=? n) && (n <=? 190)) ||
  ((192 <=? n) && (n <=? 214)) || ((216 <=? n) && (n <=? 246)) || (248 <=? n).

(** The class [[\w.-]]. *)
Definition in_repo_class (ch : ascii) : bool :=
  is_word ch || Ascii.eqb ch "." || Ascii.eqb ch "-".

(** What is left of a string after its longest prefix in the class. *)
Fixpoint after_class_run (s : string) : string :=
  match s with
  | EmptyString => EmptyString
  | String ch s' => if in_repo_class ch then after_class_run s' else s
  end.

Definition starts_in_class (s : string) : bool :=
  match s with
  | EmptyString => false
  | String ch _ => in_repo_class ch
  end.

(** [re.match(r'^[\w.-]+/[\w.-]+$', s)] finds a match: a run of the
    class, a slash, a run of the class, and then the end of the string
    or a newline that ends the string (which [$] allows).  The slash is
    not in the class, so each run is the longest one. *)
Definition repo_format_ok (s : string) : bool :=
  starts_in_class s &&
  match after_class_run s with
  | EmptyString => false
  | String ch r =>
      Ascii.eqb ch "/" && starts_in_class r &&
      (String.eqb (after_class_run r) "" || String.eqb (after_class_run r) nl)
  end.

(** Every character of a string is in the class. *)
Fixpoint all_in_class (s : string) : bool :=
  match s with
  | EmptyString => true
  | String ch s' => in_repo_class ch && all_in_class s'
  end.

Definition DEFAULT_REPOSITORY : string := "YOUR_USERNAME/gemini-cli-docs".

(** The keys that [save_manifest] adds, besides [last_updated]. *)
Record manifest_description := {
  base_url : string;
  github_repository : string;
  github_ref : string;
  source_repository : string;
  description : string
}.

(** The part of [save_manifest] that computes these keys; [true] when
    the warning for an invalid repository name is given. *)
Definition describe_manifest (env : environment) : bool * manifest_description :=
  let github_repo := default DEFAULT_REPOSITORY (GITHUB_REPOSITORY env) in
  let github_ref := default "main" (GITHUB_REF_NAME env) in
  let invalid := negb (repo_format_ok github_repo) in
  let github_repo := if invalid then DEFAULT_REPOSITORY else github_repo in
  (invalid,
   {| base_url := "https://raw.githubusercontent.com/" +:+ github_repo +:+ "/" +:+
                  github_ref +:+ "/docs/";
      github_repository := github_repo;
      github_ref := github_ref;
      source_repository := "google-gemini/gemini-cli";
      description := "Gemini CLI documentation manifest. Community mirror - not affiliated with Google." |}).

(** [time.sleep] raises a [ValueError] on a negative number, and no
    handler of the fetch loops retries after it.  An answer is
    sleepable when it is no 429 answer with a negative [Retry-After];
    an origin is polite when all its answers to the fetches of the
    files and of the changelog are. *)
Definition sleepable {B : Type} (r : http_result B) : Prop :=
  forall hdrs body w,
    r = Response 429 hdrs body -> retry_after hdrs = Some w -> (0 <= w)%Z.

Definition polite_origin (o : origin) : Prop :=
  (forall file_path k, k < MAX_RETRIES -> sleepable (raw_get o file_path k)) /\
  (forall k, k < MAX_RETRIES -> sleepable (changelog_get o k)).

(** ** A small origin, used to exercise the statements *)

(** Stand-ins for the digest and for the JSON codec. *)
Definition demo_digest (s : string) : string := "sha256:" +:+ s.
Definition demo_dumps (m : manifest) : string := "{}".

Definition demo_markdown (title : string) : string :=
  "# " +:+ title +:+ nl +:+
  "- a first item, with [a link](https://example.org) and some more words" +:+ nl.

(** The tree has three documents; [docs/b.md] cannot be fetched, and
    there is no changelog. *)
Definition demo_origin : origin :=
  {| tree_get := fun _ =>
       Response 200 no_headers
         [ {| path := "docs/c.md"; type := "blob" |};
           {| path := "docs/a.md"; type := "blob" |};
           {| path := "docs/b.md"; type := "blob" |};
           {| path := "docs"; type := "tree" |};
           {| path := "README.md"; type := "blob" |} ];
     raw_get := fun file_path _ =>
       if String.eqb file_path "docs/a.md"
       then Response 200 no_headers (demo_markdown "A")
       else if String.eqb file_path "docs/c.md"
       then Response 200 no_headers (demo_markdown "C")
       else RequestFailed;
     changelog_get := fun _ => Response 404 no_headers "" |}.

Definition demo_clock (stamp : string) : clock :=
  {| unix_time := fun _ => 1700000000%Z;
     now_doc := fun _ => stamp;
     now_changelog := stamp;
     now_save := stamp |}.

Definition demo_entry (file_path content stamp : string) : manifest_entry :=
  {| original_path := file_path;
     github_url := github_blob_url file_path;
     hash := Some (demo_digest content);
     last_updated := Some stamp;
     source := None |}.

(** The previous manifest knows [a.md], with its present text, and
    [b.md]. *)
Definition demo_manifest : manifest :=
  {| files := {[ "a.md" := demo_entry "docs/a.md" (demo_markdown "A") "2025-01-01";
                 "b.md" := demo_entry "docs/b.md" (demo_markdown "B") "2025-01-01" ]};
     manifest_last_updated := Some "2025-01-01";
     metadata := None |}.

Definition demo_disk : gmap string string :=
  {[ "a.md" := demo_markdown "A";
     "b.md" := demo_markdown "B";
     "docs_manifest.json" := "{}" ]}.




Definition demo_refused_origin : origin :=
  {| tree_get := fun _ => Response 403 no_headers [];
     raw_get := raw_get demo_origin;
     changelog_get := changelog_get demo_origin |}.

(** A text of sixty list items, one on a line. *)
Fixpoint demo_items (n : nat) : string :=
  match n with
  | O => EmptyString
  | S n' => "- an item" +:+ nl +:+ demo_items n'
  end.

Definition demo_environment : environment :=
  {| GITHUB_TOKEN := None;
     GITHUB_REPOSITORY := Some "someone/gemini-cli-docs";
     GITHUB_REF_NAME := None |}.

(** A parser that reads every text as a JSON string. *)
Definition demo_loads_string (text : string) : option json := Some (JStr text).

(* ================================================================== *)
(** * Properties *)
(* ================================================================== *)

Example safe_filename_commands :
  path_to_safe_filename "docs/cli/commands.md" = "cli__commands.md".
Proof. reflexivity. Qed.

Example safe_filename_index :
  path_to_safe_filename "docs/index.md" = "index.md".
Proof. reflexivity. Qed.

(** ** Strings *)

Section StringFacts.

Implicit Types s p r : string.

Lemma len_app s r : Py.len (s +:+ r) = Py.len s + Py.len r.
Proof. induction s as [|c s IH]; simpl; [reflexivity|]. unfold Py.len in *. simpl. now rewrite IH. Qed.

Lemma app_empty_r s : s +:+ "" = s.
Proof. induction s as [|c s IH]; simpl; [reflexivity|]. unfold String.app in *. simpl. now rewrite IH. Qed.

Lemma app_cons c s r : String c s +:+ r = String c (s +:+ r).
Proof. reflexivity. Qed.

Lemma app_assoc_str s p r : (s +:+ p) +:+ r = s +:+ (p +:+ r).
Proof. induction s as [|c s IH]; [reflexivity|]. rewrite !app_cons. now rewrite IH. Qed.

Lemma startswith_refl_app p r : Py.startswith (p +:+ r) p = true.
Proof.
  induction p as [|c p IH]; [reflexivity|].
  rewrite app_cons. simpl. now rewrite Ascii.eqb_refl, IH.
Qed.

Lemma startswith_split s p :
  Py.startswith s p = true -> s = p +:+ Py.slice_from (Py.len p) s.
Proof.
  revert s. induction p as [|c p IH]; intros s H; [reflexivity|].
  destruct s as [|b s]; [discriminate|]. simpl in H.
  apply andb_true_iff in H as [Hc Hp]. apply Ascii.eqb_eq in Hc. subst b.
  rewrite app_cons. f_equal. now apply IH.
Qed.

Lemma startswith_app_l s p r :
  Py.startswith s p = true -> Py.startswith (s +:+ r) p = true.
Proof.
  revert s. induction p as [|c p IH]; intros s H; [reflexivity|].
  destruct s as [|b s]; [discriminate|]. simpl in H.
  apply andb_true_iff in H as [Hc Hp]. rewrite app_cons. simpl.
  rewrite Hc. simpl. now apply IH.
Qed.

Lemma slice_from_app s r : Py.slice_from (Py.len s) (s +:+ r) = r.
Proof. induction s as [|c s IH]; [reflexivity|]. rewrite app_cons. simpl. exact IH. Qed.

Lemma slice_to_app s r : Py.slice_to (Py.len s) (s +:+ r) = s.
Proof.
  induction s as [|c s IH]; [now destruct r|]. rewrite app_cons. simpl. now rewrite IH.
Qed.

Lemma slice_to_from n s : Py.slice_to n s +:+ Py.slice_from n s = s.
Proof.
  revert s. induction n as [|n IH]; intros s; [reflexivity|].
  destruct s as [|c s]; [reflexivity|]. simpl. rewrite app_cons. now rewrite IH.
Qed.

Lemma endswith_app s suf : Py.endswith (s +:+ suf) suf = true.
Proof.
  unfold Py.endswith. rewrite len_app.
  replace (Py.len s + Py.len suf - Py.len suf) with (Py.len s) by lia.
  rewrite slice_from_app. apply String.eqb_refl.
Qed.

Lemma slice_to_neg_app s suf : Py.slice_to_neg (Py.len suf) (s +:+ suf) = s.
Proof.
  unfold Py.slice_to_neg. rewrite len_app.
  replace (Py.len s + Py.len suf - Py.len suf) with (Py.len s) by lia.
  apply slice_to_app.
Qed.

Lemma endswith_split s suf :
  Py.endswith s suf = true -> s = Py.slice_to_neg (Py.len suf) s +:+ suf.
Proof.
  unfold Py.endswith, Py.slice_to_neg. intros H. apply String.eqb_eq in H.
  etransitivity; [symmetry; apply (slice_to_from (Py.len s - Py.len suf))|].
  now rewrite H.
Qed.

Lemma contains_cons c s p :
  Py.contains (String c s) p = Py.startswith (String c s) p || Py.contains s p.
Proof. reflexivity. Qed.

Lemma contains_app_r s r p :
  Py.contains r p = true -> Py.contains (s +:+ r) p = true.
Proof.
  intros H. induction s as [|c s IH]; [exact H|].
  rewrite app_cons, contains_cons, IH. apply orb_true_r.
Qed.

Lemma contains_app_l s r p :
  Py.contains s p = true -> Py.contains (s +:+ r) p = true.
Proof.
  induction s as [|c s IH]; intros H.
  - simpl in H. rewrite orb_false_r in H. destruct p; [|discriminate].
    now destruct r.
  - rewrite contains_cons in H. rewrite app_cons, contains_cons.
    apply orb_true_iff in H as [H|H].
    + rewrite <- app_cons, (startswith_app_l _ _ _ H). reflexivity.
    + rewrite (IH H). apply orb_true_r.
Qed.

(** A single character occurs in a concatenation iff it occurs in a part. *)
Lemma contains_char_app a s r :
  Py.contains (s +:+ r) (String a "") =
  Py.contains s (String a "") || Py.contains r (String a "").
Proof.
  induction s as [|c s IH]; [reflexivity|].
  rewrite app_cons, !contains_cons, IH. simpl. now rewrite orb_assoc.
Qed.

End StringFacts.

(** ** Logical names *)

Section SafeFilename.

Implicit Types s p q : string.

Lemma replace_slash_cons c s :
  Py.replace (String c s) "/" "__" =
  if Ascii.eqb c "/"
  then String "_" (String "_" (Py.replace s "/" "__"))
  else String c (Py.replace s "/" "__").
Proof.
  unfold Py.replace. simpl. rewrite andb_true_r.
  destruct (Ascii.eqb c "/"); reflexivity.
Qed.

Lemma replace_slash_no_slash s :
  Py.contains (Py.replace s "/" "__") "/" = false.
Proof.
  induction s as [|c s IH]; [reflexivity|].
  rewrite replace_slash_cons. destruct (Ascii.eqb c "/") eqn:E.
  - rewrite !contains_cons, IH. reflexivity.
  - rewrite contains_cons, IH. simpl. now rewrite E.
Qed.

Lemma replace_slash_id s :
  Py.contains s "/" = false -> Py.replace s "/" "__" = s.
Proof.
  induction s as [|c s IH]; intros H; [reflexivity|].
  rewrite contains_cons in H. apply orb_false_iff in H as [Hc Hs].
  simpl in Hc. rewrite andb_true_r in Hc.
  rewrite replace_slash_cons, Hc. now rewrite IH.
Qed.

Lemma no_slash_not_under_docs s :
  Py.contains s "/" = false -> Py.startswith s "docs/" = false.
Proof.
  intros H. destruct (Py.startswith s "docs/") eqn:E; [|reflexivity].
  apply startswith_split in E. rewrite E, contains_char_app in H.
  discriminate.
Qed.

Lemma safe_filename_shape p :
  exists x, path_to_safe_filename p = Py.replace x "/" "__" +:+ ".md".
Proof. unfold path_to_safe_filename. eexists. reflexivity. Qed.

Lemma safe_filename_no_slash p :
  Py.contains (path_to_safe_filename p) "/" = false.
Proof.
  destruct (safe_filename_shape p) as [x ->].
  now rewrite contains_char_app, replace_slash_no_slash.
Qed.

Lemma safe_filename_idempotent p :
  path_to_safe_filename (path_to_safe_filename p) = path_to_safe_filename p.
Proof.
  pose proof (safe_filename_no_slash p) as Hns.
  destruct (safe_filename_shape p) as [x Hx]. rewrite Hx in *.
  unfold path_to_safe_filename at 1.
  rewrite (no_slash_not_under_docs _ Hns), endswith_app.
  rewrite (slice_to_neg_app _ ".md").
  now rewrite (replace_slash_id _ (replace_slash_no_slash x)).
Qed.

Lemma safe_filename_ends_md p : Py.endswith (path_to_safe_filename p) ".md" = true.
Proof. destruct (safe_filename_shape p) as [x ->]. apply endswith_app. Qed.

Lemma safe_filename_not_manifest p : path_to_safe_filename p <> MANIFEST_FILE.
Proof.
  intros H. pose proof (safe_filename_ends_md p) as E. rewrite H in E.
  discriminate.
Qed.

Lemma endswith_under_docs r :
  Py.endswith ("docs/" +:+ r) ".md" = true -> Py.endswith r ".md" = true.
Proof.
  destruct r as [|a [|b [|c r]]]; try (intros H; cbn in H; discriminate).
  intros H. unfold Py.endswith in *.
  change (Py.slice_from (Py.len ("docs/" +:+ String a (String b (String c r))) - Py.len ".md")
            ("docs/" +:+ String a (String b (String c r))))
    with (Py.slice_from (Py.len r) (String a (String b (String c r)))) in H.
  simpl. rewrite Nat.sub_0_r. exact H.
Qed.

Lemma origin_path_split p :
  is_origin_path p = true ->
  p = "docs/" +:+ normalized_path p +:+ ".md" /\
  path_to_safe_filename p = Py.replace (normalized_path p) "/" "__" +:+ ".md".
Proof.
  unfold is_origin_path. intros H. apply andb_true_iff in H as [Hd Hm].
  pose proof (startswith_split _ _ Hd) as Hp. simpl Py.len in Hp.
  set (r := Py.slice_from 5 p) in *.
  assert (Hr : Py.endswith r ".md" = true).
  { apply endswith_under_docs. now rewrite <- Hp. }
  split.
  - rewrite Hp at 1. f_equal. apply (endswith_split _ _ Hr).
  - unfold path_to_safe_filename. rewrite Hd. fold r. now rewrite Hr.
Qed.

Lemma replace_slash_head s :
  Py.startswith (Py.replace s "/" "__") "_" = true ->
  Py.startswith s "_" = true \/ Py.startswith s "/" = true.
Proof.
  destruct s as [|c s]; [discriminate|].
  rewrite replace_slash_cons. destruct (Ascii.eqb c "/") eqn:E.
  - intros _. right. simpl. now rewrite E.
  - intros H. left. exact H.
Qed.

Lemma replace_slash_inverse s :
  Py.contains s "__" = false -> Py.contains s "_/" = false ->
  Py.replace (Py.replace s "/" "__") "__" "/" = s.
Proof.
  induction s as [|c s IH]; intros H1 H2; [reflexivity|].
  rewrite contains_cons in H1, H2.
  apply orb_false_iff in H1 as [H1 H1s], H2 as [H2 H2s].
  specialize (IH H1s H2s).
  rewrite replace_slash_cons. destruct (Ascii.eqb c "/") eqn:E.
  - apply Ascii.eqb_eq in E. subst c. unfold Py.replace in *. simpl.
    now rewrite IH.
  - unfold Py.replace in *.
    assert (Hh : Py.startswith (String c (Py.replace_from "/" "__" 0 s)) "__" = false).
    { simpl. destruct (Ascii.eqb c "_") eqn:Ec; [|reflexivity]. simpl.
      destruct (Py.startswith (Py.replace_from "/" "__" 0 s) "_") eqn:Es.
      - apply replace_slash_head in Es. simpl in H1, H2. rewrite Ec in H1, H2.
        simpl in H1, H2. destruct Es as [Es|Es].
        + destruct s; [discriminate|]. simpl in Es. rewrite andb_true_r in *. congruence.
        + destruct s; [discriminate|]. simpl in Es. rewrite andb_true_r in *. congruence.
      - destruct (Py.replace_from "/" "__" 0 s); [reflexivity|].
        simpl in Es. rewrite andb_true_r in Es. simpl. now rewrite Es. }
    change (Py.replace_from "__" "/" 0 (String c (Py.replace_from "/" "__" 0 s)))
      with (if Py.startswith (String c (Py.replace_from "/" "__" 0 s)) "__"
            then "/" +:+ Py.replace_from "__" "/" 1 (Py.replace_from "/" "__" 0 s)
            else String c (Py.replace_from "__" "/" 0 (Py.replace_from "/" "__" 0 s))).
    now rewrite Hh, IH.
Qed.

Lemma separator_safe_normalized p :
  is_origin_path p = true -> separator_safe p = true ->
  Py.contains (normalized_path p) "__" = false /\
  Py.contains (normalized_path p) "_/" = false.
Proof.
  intros Ho Hs. destruct (origin_path_split p Ho) as [Hp _].
  unfold separator_safe in Hs. apply andb_true_iff in Hs as [H1 H2].
  apply negb_true_iff in H1, H2. rewrite Hp in H1, H2. split.
  - destruct (Py.contains (normalized_path p) "__") eqn:E; [|reflexivity].
    rewrite (contains_app_r "docs/" _ _ (contains_app_l _ ".md" _ E)) in H1.
    discriminate.
  - destruct (Py.contains (normalized_path p) "_/") eqn:E; [|reflexivity].
    rewrite (contains_app_r "docs/" _ _ (contains_app_l _ ".md" _ E)) in H2.
    discriminate.
Qed.

Lemma recover_safe_filename p :
  is_origin_path p = true -> separator_safe p = true ->
  recover_normalized (path_to_safe_filename p) = normalized_path p.
Proof.
  intros Ho Hs. destruct (origin_path_split p Ho) as [_ Hf].
  destruct (separator_safe_normalized p Ho Hs) as [H1 H2].
  unfold recover_normalized. rewrite Hf, (slice_to_neg_app _ ".md").
  now apply replace_slash_inverse.
Qed.

End SafeFilename.

(** ** Content validator *)

Section Validator.

Lemma two_distinct_members (l : list string) x y :
  In x l -> In y l -> x <> y -> 2 <= length l.
Proof.
  destruct l as [|a [|b l]]; simpl; intros Hx Hy Hne; try lia.
  destruct Hx as [<-|[]], Hy as [<-|[]]. congruence.
Qed.

Lemma indicators_hit content line p :
  In line (scanned_lines content) -> In p markdown_patterns ->
  Py.contains line p = true -> In p (indicators content).
Proof.
  intros Hl Hp Hc. unfold indicators. apply in_flat_map.
  exists line. split; [exact Hl|]. apply filter_In. now split.
Qed.


Lemma validate_plain content filename :
  looks_like_html content = false ->
  50 <= Py.len (PyText.strip content) ->
  validate_markdown_content content filename =
  if indicator_count content <? 2
  then Raise (ValueError (NotMarkdown (indicator_count content)))
  else Return tt.
Proof.
  intros Hh Hl. unfold validate_markdown_content. rewrite Hh.
  destruct (Nat.ltb_spec (Py.len (PyText.strip content)) 50); [lia|reflexivity].
Qed.



End Validator.

(** ** Retrying fetchers *)

Section Fetchers.












(** *** The changelog *)

Lemma rstrip_cons_len c s :
  Py.len (PyText.rstrip (String c s)) <= S (Py.len (PyText.rstrip s)).
Proof.
  simpl. destruct (PyText.rstrip s); [destruct (PyText.isspace c)|];
    unfold Py.len; simpl; lia.
Qed.

Lemma rstrip_app_len s r :
  Py.len (PyText.rstrip s) <= Py.len (PyText.rstrip (s +:+ r)).
Proof.
  induction s as [|c s IH]; [unfold Py.len; simpl; lia|].
  rewrite app_cons. simpl PyText.rstrip at 2.
  destruct (PyText.rstrip (s +:+ r)) as [|d t] eqn:E.
  - assert (PyText.rstrip s = "") as Hs.
    { destruct (PyText.rstrip s); [reflexivity|].
      unfold Py.len in IH. simpl in IH. lia. }
    simpl. now rewrite Hs.
  - pose proof (rstrip_cons_len c s) as Hc.
    unfold Py.len in *. simpl String.length in *. lia.
Qed.

Lemma changelog_content_long text :
  100 <= Py.len (PyText.strip (changelog_header +:+ text)).
Proof.
  unfold PyText.strip.
  assert (PyText.lstrip (changelog_header +:+ text) = changelog_header +:+ text)
    as -> by reflexivity.
  pose proof (rstrip_app_len changelog_header text) as H.
  assert (Py.len (PyText.rstrip changelog_header) = 199) as E by (vm_compute; reflexivity).
  lia.
Qed.




End Fetchers.

(** ** One step of the run *)

Section Steps.

Variables (o : origin) (c : clock) (m : manifest) (total : nat).

Lemma fetch_attempts_name file_path filename get attempts f X :
  snd (fetch_attempts file_path filename get attempts) = Return (f, X) ->
  f = filename.
Proof.
  induction attempts as [|k attempts IH]; simpl; [discriminate|].
  destruct (get k) as [|status hdrs content]; simpl.
  - destruct (_ <? _); simpl; [exact IH|discriminate].
  - destruct (status =? 429)%Z; simpl; [exact IH|].
    destruct (is_http_error status); simpl.
    + destruct (_ <? _); simpl; [exact IH|discriminate].
    + destruct (validate_markdown_content content filename); simpl;
        [|discriminate].
      now intros [= <- _].
Qed.

Lemma fetched_content_Some get p X :
  fetched_content get p = Some X ->
  snd (fetch_markdown_content p get) = Return (path_to_safe_filename p, X).
Proof.
  unfold fetched_content.
  destruct (snd (fetch_markdown_content p get)) as [[f Y]|e] eqn:E; [|discriminate].
  intros [= ->]. now rewrite (fetch_attempts_name _ _ _ _ _ _ E).
Qed.

Lemma fetched_content_None get p :
  fetched_content get p = None ->
  exists e, snd (fetch_markdown_content p get) = Raise e.
Proof.
  unfold fetched_content.
  destruct (snd (fetch_markdown_content p get)) as [[f Y]|e]; [discriminate|].
  eauto.
Qed.

(** Both branches record the hash of the text fetched. *)
Lemma compare_and_save_hash now f X d :
  (compare_and_save m now f X d).1.1.1 = sha256 X.
Proof.
  unfold compare_and_save, content_has_changed.
  destruct (String.eqb_spec (sha256 X) (old_hash m f)) as [E|E]; simpl; congruence.
Qed.

Lemma compare_and_save_time now f X d :
  (compare_and_save m now f X d).1.1.2 =
  if content_has_changed X (old_hash m f) then now
  else default now (old_entry m f ≫= last_updated).
Proof.
  unfold compare_and_save.
  now destruct (content_has_changed X (old_hash m f)).
Qed.

Lemma compare_and_save_disk now f X d :
  (compare_and_save m now f X d).1.2 =
  if content_has_changed X (old_hash m f) then <[f := X]> d else d.
Proof.
  unfold compare_and_save.
  now destruct (content_has_changed X (old_hash m f)).
Qed.

Lemma compare_and_save_written now f X d :
  (compare_and_save m now f X d).2 =
  if content_has_changed X (old_hash m f) then [f] else [].
Proof.
  unfold compare_and_save.
  now destruct (content_has_changed X (old_hash m f)).
Qed.

Lemma process_doc_success i p st X :
  fetched_content (raw_get o p) p = Some X ->
  process_doc o c m total i p st =
  {| disk := (compare_and_save m (now_doc c i) (path_to_safe_filename p) X (disk st)).1.2;
     new_files := <[path_to_safe_filename p := doc_entry m (now_doc c i) p X]> (new_files st);
     fetched_files := {[path_to_safe_filename p]} ∪ fetched_files st;
     successful := S (successful st);
     failed := failed st;
     failed_pages := failed_pages st;
     written := written st ++
                (compare_and_save m (now_doc c i) (path_to_safe_filename p) X (disk st)).2;
     trace := trace st ++ fst (fetch_markdown_content p (raw_get o p)) ++
              (if i <? total then [CourtesyDelay] else []) |}.
Proof.
  intros H. apply fetched_content_Some in H. unfold process_doc.
  destruct (fetch_markdown_content p (raw_get o p)) as [evs r]. simpl in H.
  subst r. unfold doc_entry, compare_and_save.
  destruct (content_has_changed X (old_hash m (path_to_safe_filename p))); reflexivity.
Qed.

Lemma process_doc_failure i p st :
  fetched_content (raw_get o p) p = None ->
  process_doc o c m total i p st =
  {| disk := disk st;
     new_files := new_files st;
     fetched_files := fetched_files st;
     successful := successful st;
     failed := S (failed st);
     failed_pages := failed_pages st ++ [p];
     written := written st;
     trace := trace st ++ fst (fetch_markdown_content p (raw_get o p)) ++
              [Log (ErrorProcessFailed p)] |}.
Proof.
  intros H. apply fetched_content_None in H as [e H]. unfold process_doc.
  destruct (fetch_markdown_content p (raw_get o p)) as [evs r]. simpl in H.
  now subst r.
Qed.

Lemma fetch_changelog_name get f X :
  snd (fetch_changelog get) = Return (Some (f, X)) -> f = changelog_filename.
Proof.
  unfold fetch_changelog. generalize (seq 0 MAX_RETRIES). intros attempts.
  induction attempts as [|k attempts IH]; simpl; [discriminate|].
  destruct (get k) as [|status hdrs text]; simpl.
  - destruct (_ <? _); simpl; [exact IH|discriminate].
  - destruct (status =? 404)%Z; simpl; [discriminate|].
    destruct (status =? 429)%Z; simpl; [exact IH|].
    destruct (is_http_error status); simpl.
    + destruct (_ <? _); simpl; [exact IH|discriminate].
    + destruct (_ <? _); simpl; [discriminate|]. now intros [= <- _].
Qed.

Lemma process_changelog_success st X :
  fetched_changelog (changelog_get o) = Some X ->
  process_changelog o c m st =
  {| disk := (compare_and_save m (now_changelog c) changelog_filename X (disk st)).1.2;
     new_files := <[changelog_filename := changelog_entry m (now_changelog c) X]>
                    (new_files st);
     fetched_files := {[changelog_filename]} ∪ fetched_files st;
     successful := S (successful st);
     failed := failed st;
     failed_pages := failed_pages st;
     written := written st ++
                (compare_and_save m (now_changelog c) changelog_filename X (disk st)).2;
     trace := trace st ++ fst (fetch_changelog (changelog_get o)) |}.
Proof.
  unfold fetched_changelog, process_changelog.
  destruct (fetch_changelog (changelog_get o)) as [evs r] eqn:E.
  assert (snd (fetch_changelog (changelog_get o)) = r) as Hr by now rewrite E.
  simpl. destruct r as [[[f Y]|]|e]; try discriminate.
  intros [= ->]. apply fetch_changelog_name in Hr. subst f.
  unfold changelog_entry, compare_and_save.
  destruct (content_has_changed X (old_hash m changelog_filename)); reflexivity.
Qed.

Lemma process_changelog_failure st :
  fetched_changelog (changelog_get o) = None ->
  process_changelog o c m st =
  {| disk := disk st; new_files := new_files st;
     fetched_files := fetched_files st; successful := successful st;
     failed := failed st; failed_pages := failed_pages st;
     written := written st;
     trace := trace st ++ fst (fetch_changelog (changelog_get o)) |}.
Proof.
  unfold fetched_changelog, process_changelog.
  destruct (fetch_changelog (changelog_get o)) as [evs r]. simpl.
  destruct r as [[[f Y]|]|e]; try discriminate; reflexivity.
Qed.

(** *** The loop over the discovered files *)


Lemma process_docs_fetched paths i st n :
  n ∈ fetched_files (process_docs o c m total i paths st) <->
  n ∈ fetched_files st \/
  exists p X, In p paths /\ path_to_safe_filename p = n /\
              fetched_content (raw_get o p) p = Some X.
Proof.
  revert i st. induction paths as [|q paths IH]; intros i st; simpl.
  - split; [auto|]. intros [H|(p & X & [] & _)]. exact H.
  - rewrite IH. destruct (fetched_content (raw_get o q) q) as [Y|] eqn:E.
    + rewrite (process_doc_success _ _ _ _ E). simpl.
      rewrite elem_of_union, elem_of_singleton. split.
      * intros [[->|H]|(p & X & Hp & Hn & Hf)]; eauto 8.
      * intros [H|(p & X & [->|Hp] & Hn & Hf)]; eauto 8.
    + rewrite (process_doc_failure _ _ _ E). simpl. split.
      * intros [H|(p & X & Hp & Hn & Hf)]; eauto 8.
      * intros [H|(p & X & [->|Hp] & Hn & Hf)]; eauto 8. congruence.
Qed.

Lemma process_docs_dom paths i st :
  dom (new_files st) = fetched_files st ->
  dom (new_files (process_docs o c m total i paths st)) =
  fetched_files (process_docs o c m total i paths st).
Proof.
  revert i st. induction paths as [|q paths IH]; intros i st H; simpl; [exact H|].
  apply IH. destruct (fetched_content (raw_get o q) q) as [Y|] eqn:E.
  - rewrite (process_doc_success _ _ _ _ E). simpl.
    now rewrite dom_insert_L, H.
  - now rewrite (process_doc_failure _ _ _ E).
Qed.

(** A name that no successful fetch yields keeps its file and has no
    new entry. *)
Lemma process_docs_frame paths i st n :
  (forall p X, In p paths -> path_to_safe_filename p = n ->
               fetched_content (raw_get o p) p = Some X -> False) ->
  disk (process_docs o c m total i paths st) !! n = disk st !! n /\
  new_files (process_docs o c m total i paths st) !! n = new_files st !! n.
Proof.
  revert i st. induction paths as [|q paths IH]; intros i st H; simpl; [auto|].
  destruct (IH (S i) (process_doc o c m total i q st)) as [-> ->].
  { intros p X Hp. apply H. now right. }
  destruct (fetched_content (raw_get o q) q) as [Y|] eqn:E.
  - assert (path_to_safe_filename q <> n) as Hne.
    { intros Hn. apply (H q Y); auto. now left. }
    rewrite (process_doc_success _ _ _ _ E). simpl.
    rewrite compare_and_save_disk, lookup_insert_ne by exact Hne.
    destruct (content_has_changed _ _); [|auto].
    now rewrite lookup_insert_ne by exact Hne.
  - now rewrite (process_doc_failure _ _ _ E).
Qed.






(** *** Reconciliation *)

Lemma cleanup_fold (docs_dir : gmap string string) (X : gset string) :
  forall n,
    (n ∈ (set_fold cleanup_step (docs_dir, ∅) X).2 <->
     (n ∈ X /\ n <> MANIFEST_FILE) /\ is_Some (docs_dir !! n)) /\
    (n ∈ X /\ n <> MANIFEST_FILE ->
     (set_fold cleanup_step (docs_dir, ∅) X).1 !! n = None) /\
    (~ (n ∈ X /\ n <> MANIFEST_FILE) ->
     (set_fold cleanup_step (docs_dir, ∅) X).1 !! n = docs_dir !! n).
Proof.
  clear sha256 m json_loads json_dumps.
  apply (set_fold_ind_L
           (fun (r : gmap string string * gset string) (X : gset string) =>
              forall n,
                (n ∈ r.2 <-> (n ∈ X /\ n <> MANIFEST_FILE) /\ is_Some (docs_dir !! n)) /\
                (n ∈ X /\ n <> MANIFEST_FILE -> r.1 !! n = None) /\
                (~ (n ∈ X /\ n <> MANIFEST_FILE) -> r.1 !! n = docs_dir !! n))).
  - intros n. simpl. split; [|split].
    + split; [intros H; set_solver|]. intros [[H _] _]. set_solver.
    + intros [H _]. set_solver.
    + reflexivity.
  - intros x Y r Hx IH n. unfold cleanup_step.
    destruct (String.eqb_spec x MANIFEST_FILE) as [Hm|Hm].
    + destruct (IH n) as (I1 & I2 & I3). split; [|split].
      * rewrite I1. set_solver.
      * intros [Hn Hne]. apply I2. set_solver.
      * intros Hn. apply I3. set_solver.
    + assert (r.1 !! x = docs_dir !! x) as Hrx.
      { destruct (IH x) as (_ & _ & I3). apply I3. tauto. }
      destruct (IH n) as (I1 & I2 & I3).
      destruct (r.1 !! x) as [v|] eqn:Ex; simpl.
      * split; [|split].
        -- rewrite elem_of_union, elem_of_singleton, I1.
           split.
           ++ intros [->|[[Hn Hne] Hs]]; [|set_solver].
              split; [set_solver|]. rewrite <- Hrx. eauto.
           ++ intros [[Hn Hne] Hs]. apply elem_of_union in Hn as [Hn|Hn];
                [left; set_solver|right; auto].
        -- intros [Hn Hne]. destruct (decide (n = x)) as [->|Hnx].
           ++ apply lookup_delete_eq.
           ++ rewrite lookup_delete_ne by auto. apply I2. set_solver.
        -- intros Hn. rewrite lookup_delete_ne by set_solver. apply I3. set_solver.
      * split; [|split].
        -- rewrite I1. split.
           ++ intros [[Hn Hne] Hs]. set_solver.
           ++ intros [[Hn Hne] Hs]. apply elem_of_union in Hn as [Hn|Hn]; [|auto].
              apply elem_of_singleton in Hn. subst n. rewrite <- Hrx in Hs.
              destruct Hs. discriminate.
        -- intros [Hn Hne]. apply elem_of_union in Hn as [Hn|Hn].
           ++ apply elem_of_singleton in Hn. now subst n.
           ++ apply I2. auto.
        -- intros Hn. apply I3. set_solver.
Qed.

(** The files removed are the obsolete ones that exist, the other files
    are untouched. *)
Lemma cleanup_old_files_spec docs_dir current_files n :
  let r := cleanup_old_files docs_dir current_files m in
  let obsolete :=
    (n ∈ dom (files m)) /\ (n ∉ current_files) /\ n <> MANIFEST_FILE in
  (n ∈ r.2 <-> obsolete /\ is_Some (docs_dir !! n)) /\
  (obsolete -> r.1 !! n = None) /\
  (~ obsolete -> r.1 !! n = docs_dir !! n).
Proof.
  clear sha256 json_loads json_dumps.
  cbv zeta. unfold cleanup_old_files.
  destruct (cleanup_fold docs_dir (dom (files m) ∖ current_files) n)
    as (I1 & I2 & I3).
  split; [|split].
  - rewrite I1. set_solver.
  - intros H. apply I2. set_solver.
  - intros H. apply I3. set_solver.
Qed.


End Steps.

(** ** The whole run *)

Section Runs.

Variables (o : origin) (c : clock) (m : manifest).
Variables (docs_dir : gmap string string) (doc_files : list string).

Lemma fetch_all_fetched n :
  n ∈ fetched_files (fetch_all o c m docs_dir doc_files) <->
  (n = changelog_filename /\ is_Some (fetched_changelog (changelog_get o))) \/
  exists p X, In p doc_files /\ path_to_safe_filename p = n /\
              fetched_content (raw_get o p) p = Some X.
Proof.
  unfold fetch_all.
  destruct (fetched_changelog (changelog_get o)) as [Y|] eqn:E.
  - rewrite (process_changelog_success _ _ _ _ _ E). simpl.
    rewrite elem_of_union, elem_of_singleton, process_docs_fetched. simpl.
    split.
    + intros [->|[H|H]]; eauto. set_solver.
    + intros [[-> _]|H]; eauto.
  - rewrite (process_changelog_failure _ _ _ _ E). simpl.
    rewrite process_docs_fetched. simpl. split.
    + intros [H|H]; [set_solver|eauto].
    + intros [[_ [? H]]|H]; [discriminate|eauto].
Qed.

Lemma fetch_all_dom :
  dom (new_files (fetch_all o c m docs_dir doc_files)) =
  fetched_files (fetch_all o c m docs_dir doc_files).
Proof.
  unfold fetch_all.
  pose proof (process_docs_dom o c m (length doc_files) doc_files 1
                (initial_state docs_dir)) as H.
  simpl in H. rewrite dom_empty_L in H. specialize (H eq_refl).
  destruct (fetched_changelog (changelog_get o)) as [Y|] eqn:E.
  - rewrite (process_changelog_success _ _ _ _ _ E). simpl.
    now rewrite dom_insert_L, H.
  - now rewrite (process_changelog_failure _ _ _ _ E).
Qed.

(** A name that no successful fetch yields keeps its file. *)
Lemma fetch_all_frame n :
  n ∉ fetched_files (fetch_all o c m docs_dir doc_files) ->
  disk (fetch_all o c m docs_dir doc_files) !! n = docs_dir !! n.
Proof.
  rewrite fetch_all_fetched. intros Hn. unfold fetch_all.
  destruct (process_docs_frame o c m (length doc_files) doc_files 1
              (initial_state docs_dir) n) as [Hd _].
  { intros p X Hp Hname Hf. apply Hn. eauto 8. }
  simpl in Hd. rewrite <- Hd.
  destruct (fetched_changelog (changelog_get o)) as [Y|] eqn:E.
  - assert (changelog_filename <> n) as Hne.
    { intros <-. apply Hn. left. eauto. }
    rewrite (process_changelog_success _ _ _ _ _ E). simpl.
    rewrite compare_and_save_disk.
    destruct (content_has_changed _ _); [|reflexivity].
    now rewrite lookup_insert_ne.
  - now rewrite (process_changelog_failure _ _ _ _ E).
Qed.


(** *** What [sync] returns *)

Lemma sync_fetched :
  fetched (sync o c m docs_dir doc_files) =
  fetched_files (fetch_all o c m docs_dir doc_files).
Proof. unfold sync. now destruct (cleanup_old_files _ _ _). Qed.

Lemma sync_saved :
  saved (sync o c m docs_dir doc_files) =
  written (fetch_all o c m docs_dir doc_files).
Proof. unfold sync. now destruct (cleanup_old_files _ _ _). Qed.

Lemma sync_removed :
  removed (sync o c m docs_dir doc_files) =
  (cleanup_old_files (disk (fetch_all o c m docs_dir doc_files))
     (fetched_files (fetch_all o c m docs_dir doc_files)) m).2.
Proof. unfold sync. now destruct (cleanup_old_files _ _ _). Qed.

Lemma sync_saved_manifest :
  exists m', saved_manifest (sync o c m docs_dir doc_files) = Some m' /\
             files m' = new_files (fetch_all o c m docs_dir doc_files).
Proof. unfold sync. destruct (cleanup_old_files _ _ _). simpl. eauto. Qed.

Lemma sync_final_disk n :
  n <> MANIFEST_FILE ->
  final_disk (sync o c m docs_dir doc_files) !! n =
  (cleanup_old_files (disk (fetch_all o c m docs_dir doc_files))
     (fetched_files (fetch_all o c m docs_dir doc_files)) m).1 !! n.
Proof.
  intros Hn. unfold sync. destruct (cleanup_old_files _ _ _). simpl.
  now rewrite lookup_insert_ne.
Qed.



(** *** What [main] returns *)

Lemma main_cases :
  let discovery := snd (discover_docs_from_github (tree_get o) (unix_time c)) in
  let r := main o c m docs_dir in
  (((exists e, discovery = Raise e) \/ discovery = Return []) /\
   exit_code r = 1%Z /\ final_disk r = docs_dir /\ saved_manifest r = None /\
   fetched r = ∅ /\ saved r = [] /\ removed r = ∅) \/
  (exists files_found,
     discovery = Return files_found /\ files_found <> [] /\
     exit_code r = exit_code (sync o c m docs_dir files_found) /\
     final_disk r = final_disk (sync o c m docs_dir files_found) /\
     saved_manifest r = saved_manifest (sync o c m docs_dir files_found) /\
     fetched r = fetched (sync o c m docs_dir files_found) /\
     saved r = saved (sync o c m docs_dir files_found) /\
     removed r = removed (sync o c m docs_dir files_found)).
Proof.
  cbv zeta. unfold main.
  destruct (discover_docs_from_github (tree_get o) (unix_time c)) as [evs r].
  simpl. destruct r as [[|p l]|e].
  - left. repeat split; eauto.
  - right. exists (p :: l). repeat split; auto; discriminate.
  - left. repeat split; eauto.
Qed.

End Runs.




(** ** Unchanged files *)

Section Unchanged.







Variables (o : origin) (c1 c2 : clock) (m0 m1 : manifest).




End Unchanged.


(** ** Loading the manifest *)


(** A parsed value that is not an object: a [TypeError] gives the empty
    manifest, except that a list with the item ["files"] and a string
    in which [files] occurs are returned as they are. *)
Lemma load_manifest_not_object docs_dir text v :
  docs_dir !! MANIFEST_FILE = Some text -> json_loads text = Some v ->
  (forall members, v <> JObj members) ->
  (load_manifest docs_dir).2 = empty_manifest \/ (load_manifest docs_dir).2 = v.
Proof.
  intros Hd Hl Hv. unfold load_manifest, load_manifest_try. rewrite Hd, Hl.
  destruct v as [| | | s |items|members]; simpl; auto.
  - destruct (negb (Py.contains s "files")); simpl; auto.
  - destruct (negb (existsb _ items)); simpl; auto.
  - now destruct (Hv members).
Qed.


(** ** The changelog step *)


(** ** Logical names: the claims *)

(** C6 (as amended): on origin paths, under [docs/] and ending in [.md],
    in which no underscore is followed by an underscore or by a
    separator, the derivation of the logical name is injective, and the
    normalized form of the path is recovered from the logical name by
    dropping [.md] and replacing every double underscore by a
    separator. *)
Theorem safe_filename_injective_on_separator_safe_paths (p q : string) :
  is_origin_path p = true -> is_origin_path q = true ->
  separator_safe p = true -> separator_safe q = true ->
  (p <> q -> path_to_safe_filename p <> path_to_safe_filename q) /\
  recover_normalized (path_to_safe_filename p) = normalized_path p /\
  p = "docs/" +:+ normalized_path p +:+ ".md".
Proof.
  intros Hp Hq Sp Sq.
  pose proof (recover_safe_filename p Hp Sp) as Rp.
  pose proof (recover_safe_filename q Hq Sq) as Rq.
  destruct (origin_path_split p Hp) as [Ep _].
  destruct (origin_path_split q Hq) as [Eq _].
  split; [|split; assumption].
  intros Hne Hf. apply Hne. rewrite Ep, Eq. rewrite Hf in Rp. congruence.
Qed.

(** C7 (as amended): [docs/cli/commands.md] gives [cli__commands.md]
    and [docs/index.md] gives [index.md]; the derivation applied to one
    of its outputs gives this output again, since the output has no
    separator and so no [docs/] prefix, and only its [.md] suffix is
    dropped and put back; it is one-way: applied to its output it
    never gives back an origin path. *)
Theorem safe_filename_is_idempotent :
  path_to_safe_filename "docs/cli/commands.md" = "cli__commands.md" /\
  path_to_safe_filename "docs/index.md" = "index.md" /\
  (forall p, path_to_safe_filename (path_to_safe_filename p) =
             path_to_safe_filename p) /\
  (forall p, Py.startswith (path_to_safe_filename p) "docs/" = false) /\
  (forall p, is_origin_path p = true ->
             path_to_safe_filename (path_to_safe_filename p) <> p).
Proof.
  split; [reflexivity|]. split; [reflexivity|].
  split; [exact safe_filename_idempotent|]. split.
  - intros p. apply no_slash_not_under_docs, safe_filename_no_slash.
  - intros p Hp Heq. rewrite safe_filename_idempotent in Heq.
    pose proof (no_slash_not_under_docs _ (safe_filename_no_slash p)) as H.
    rewrite Heq in H. unfold is_origin_path in Hp.
    apply andb_true_iff in Hp as [Hp _]. congruence.
Qed.

(* ================================================================== *)
(** * Further properties of the script *)
(* ================================================================== *)

(** ** Discovery: what is returned *)

Section Discovery.

Lemma insert_sorted_perm x l : Permutation (x :: l) (insert_sorted x l).
Proof.
  induction l as [|y l IH]; simpl; [reflexivity|].
  destruct (String.leb x y); [reflexivity|].
  rewrite perm_swap. now apply perm_skip.
Qed.

Lemma sorted_perm l : Permutation l (sorted l).
Proof.
  induction l as [|x l IH]; simpl; [reflexivity|].
  rewrite <- insert_sorted_perm. now apply perm_skip.
Qed.

Lemma insert_sorted_head x l y :
  leb_true y x -> HdRel leb_true y l -> HdRel leb_true y (insert_sorted x l).
Proof.
  intros Hyx Hl. destruct l as [|z l]; simpl; [now constructor|].
  destruct (String.leb x z); constructor; [exact Hyx|].
  now inversion Hl.
Qed.

Lemma insert_sorted_sorted x l :
  Sorted leb_true l -> Sorted leb_true (insert_sorted x l).
Proof.
  induction 1 as [|y l Hs IH Hh]; simpl; [repeat constructor|].
  destruct (String.leb x y) eqn:E.
  - constructor; [now constructor|]. now constructor.
  - constructor; [exact IH|]. apply insert_sorted_head; [|exact Hh].
    unfold leb_true. destruct (String.leb_total x y) as [H|H]; congruence.
Qed.

Lemma sorted_sorted l : Sorted leb_true (sorted l).
Proof.
  induction l as [|x l IH]; simpl; [constructor|]. now apply insert_sorted_sorted.
Qed.

Lemma docs_files_origin tree :
  Forall (fun p => is_origin_path p = true) (docs_files tree).
Proof.
  unfold docs_files. apply Forall_forall. intros p Hp.
  apply list_elem_of_In, in_map_iff in Hp as (item & <- & Hi).
  apply filter_In in Hi as [_ Hi].
  apply andb_true_iff in Hi as [Hi Hm]. apply andb_true_iff in Hi as [_ Hd].
  unfold is_origin_path. now rewrite Hd, Hm.
Qed.

(** A list that the loop returns is empty or comes from an answer. *)
Lemma discover_attempts_return get time attempts l :
  snd (discover_attempts get time attempts) = Return l ->
  l = [] \/
  exists k status hdrs data,
    In k attempts /\ get k = Response status hdrs data /\
    status <> 403%Z /\ is_http_error status = false /\
    l = sorted (docs_files data).
Proof.
  induction attempts as [|k attempts IH]; simpl.
  - intros [= <-]. now left.
  - assert (snd (discover_attempts get time attempts) = Return l ->
            l = [] \/
            exists k0 status hdrs data,
              (k = k0 \/ In k0 attempts) /\ get k0 = Response status hdrs data /\
              status <> 403%Z /\ is_http_error status = false /\
              l = sorted (docs_files data)) as Hrest.
    { intros H. destruct (IH H) as [?|(k0 & st & h & d & Hk & Hr)]; [now left|].
      right. exists k0, st, h, d. tauto. }
    destruct (get k) as [|status hdrs data] eqn:G; simpl.
    + destruct (_ <? _); simpl; [exact Hrest|discriminate].
    + destruct (Z.eqb_spec status 403) as [E|E].
      * destruct (x_ratelimit_reset hdrs); simpl; [|discriminate].
        destruct (_ && _); simpl; [exact Hrest|discriminate].
      * destruct (is_http_error status) eqn:He; simpl.
        -- destruct (_ <? _); simpl; [exact Hrest|discriminate].
        -- intros [= <-]. right. exists k, status, hdrs, data. tauto.
Qed.

End Discovery.

(** X1: a list that the discovery returns is in the order of the code
    points, holds only paths under [docs/] that end in [.md], and is
    empty or a rearrangement of the documents of a tree that was
    received. *)
Theorem discovery_returns_sorted_origin_paths
    (get : nat -> http_result (list tree_item)) (time : nat -> Z)
    (l : list string) :
  snd (discover_docs_from_github get time) = Return l ->
  Sorted leb_true l /\
  Forall (fun p => is_origin_path p = true) l /\
  (l = [] \/
   exists k status hdrs data,
     k < MAX_RETRIES /\ get k = Response status hdrs data /\
     Permutation (docs_files data) l).
Proof.
  intros H. apply discover_attempts_return in H
    as [->|(k & status & hdrs & data & Hk & Hg & _ & _ & ->)].
  - split; [constructor|]. split; [constructor|]. now left.
  - split; [apply sorted_sorted|]. split.
    + apply Forall_forall. intros p Hp.
      pose proof (docs_files_origin data) as Hf.
      rewrite Forall_forall in Hf. apply Hf.
      apply list_elem_of_In. apply list_elem_of_In in Hp.
      eapply Permutation_in; [symmetry; apply sorted_perm|exact Hp].
    + right. exists k, status, hdrs, data. split; [|split; [exact Hg|]].
      * apply in_seq in Hk. lia.
      * apply sorted_perm.
Qed.

(** ** The attempt loops: bounds *)

Section Attempts.

Lemma requests_cons e evs :
  requests (e :: evs) =
  (match e with Get _ => 1 | _ => 0 end) + requests evs.
Proof. unfold requests. simpl. now destruct e. Qed.

Lemma backoffs_cons e evs :
  backoffs (e :: evs) =
  (match e with Backoff d => [d] | _ => [] end) ++ backoffs evs.
Proof. reflexivity. Qed.

Lemma small_backoff_cons k attempts d :
  small_backoff attempts d -> small_backoff (k :: attempts) d.
Proof. intros (k0 & H & Hr). exists k0. split; [now right|exact Hr]. Qed.

Lemma discover_attempts_bounds get time attempts :
  requests (fst (discover_attempts get time attempts)) <= length attempts /\
  (attempts <> [] -> 1 <= requests (fst (discover_attempts get time attempts))) /\
  Forall (small_backoff attempts) (backoffs (fst (discover_attempts get time attempts))).
Proof.
  induction attempts as [|k attempts (I1 & _ & I3)]; simpl.
  - split; [unfold requests; simpl; lia|]. split; [congruence|constructor].
  - assert (Forall (small_backoff (k :: attempts))
              (backoffs (fst (discover_attempts get time attempts)))) as I3'.
    { eapply Forall_impl; [exact I3|]. intros d. apply small_backoff_cons. }
    rewrite requests_cons. split; [|split; [intros _; lia|]].
    + destruct (get k) as [|status hdrs data]; simpl.
      * rewrite requests_cons. destruct (k <? _) eqn:E; simpl;
          [rewrite requests_cons|unfold requests]; simpl; lia.
      * destruct (status =? 403)%Z.
        -- destruct (x_ratelimit_reset hdrs); simpl; [|unfold requests; simpl; lia].
           rewrite requests_cons. destruct (_ && _); simpl;
             [rewrite requests_cons|unfold requests]; simpl; lia.
        -- destruct (is_http_error status); simpl; [|unfold requests; simpl; lia].
           rewrite requests_cons. destruct (k <? _); simpl;
             [rewrite requests_cons|unfold requests]; simpl; lia.
    + try rewrite backoffs_cons; simpl.
      assert (forall x : io (list string),
                Forall (small_backoff (k :: attempts)) (backoffs (fst x)) ->
                Forall (small_backoff (k :: attempts))
                  (backoffs (fst (emit (Log (WarnAttemptFailed k))
                     (if k <? MAX_RETRIES - 1
                      then emit (Backoff (backoff_delay k))
                                (discover_attempts get time attempts)
                      else x))))) as Hretry.
      { intros x Hx. destruct (k <? MAX_RETRIES - 1) eqn:E; simpl; [|exact Hx].
        constructor; [|exact I3'].
        exists k. split; [now left|]. apply Nat.ltb_lt in E. auto. }
      destruct (get k) as [|status hdrs data]; simpl.
      * apply Hretry. constructor.
      * destruct (status =? 403)%Z.
        -- destruct (x_ratelimit_reset hdrs); simpl; [|constructor].
           destruct (_ && _); simpl; [exact I3'|constructor].
        -- destruct (is_http_error status); simpl; [|constructor].
           apply Hretry. constructor.
Qed.

Lemma fetch_attempts_bounds file_path filename get attempts :
  requests (fst (fetch_attempts file_path filename get attempts)) <= length attempts /\
  (attempts <> [] ->
   1 <= requests (fst (fetch_attempts file_path filename get attempts))) /\
  Forall (small_backoff attempts)
    (backoffs (fst (fetch_attempts file_path filename get attempts))).
Proof.
  induction attempts as [|k attempts (I1 & _ & I3)]; simpl.
  - split; [unfold requests; simpl; lia|]. split; [congruence|constructor].
  - assert (Forall (small_backoff (k :: attempts))
              (backoffs (fst (fetch_attempts file_path filename get attempts)))) as I3'.
    { eapply Forall_impl; [exact I3|]. intros d. apply small_backoff_cons. }
    rewrite requests_cons. split; [|split; [intros _; lia|]].
    + destruct (get k) as [|status hdrs content]; simpl.
      * rewrite requests_cons. destruct (k <? _) eqn:E; simpl;
          [rewrite requests_cons|unfold requests]; simpl; lia.
      * destruct (status =? 429)%Z; simpl.
        { rewrite !requests_cons. simpl. lia. }
        destruct (is_http_error status); simpl.
        -- rewrite requests_cons. destruct (k <? _); simpl;
             [rewrite requests_cons|unfold requests]; simpl; lia.
        -- destruct (validate_markdown_content content filename); simpl;
             unfold requests; simpl; lia.
    + try rewrite backoffs_cons; simpl.
      assert (forall x : io (string * string),
                Forall (small_backoff (k :: attempts)) (backoffs (fst x)) ->
                Forall (small_backoff (k :: attempts))
                  (backoffs (fst (emit (Log (WarnAttemptFailed k))
                     (if k <? MAX_RETRIES - 1
                      then emit (Backoff (backoff_delay k))
                                (fetch_attempts file_path filename get attempts)
                      else x))))) as Hretry.
      { intros x Hx. destruct (k <? MAX_RETRIES - 1) eqn:E; simpl; [|exact Hx].
        constructor; [|exact I3'].
        exists k. split; [now left|]. apply Nat.ltb_lt in E. auto. }
      destruct (get k) as [|status hdrs content]; simpl.
      * apply Hretry. constructor.
      * destruct (status =? 429)%Z; simpl; [exact I3'|].
        destruct (is_http_error status); simpl; [apply Hretry; constructor|].
        destruct (validate_markdown_content content filename); simpl; constructor.
Qed.

Lemma changelog_attempts_bounds get attempts :
  requests (fst (changelog_attempts get attempts)) <= length attempts /\
  (attempts <> [] -> 1 <= requests (fst (changelog_attempts get attempts))) /\
  Forall (small_backoff attempts) (backoffs (fst (changelog_attempts get attempts))).
Proof.
  induction attempts as [|k attempts (I1 & _ & I3)]; simpl.
  - split; [unfold requests; simpl; lia|]. split; [congruence|constructor].
  - assert (Forall (small_backoff (k :: attempts))
              (backoffs (fst (changelog_attempts get attempts)))) as I3'.
    { eapply Forall_impl; [exact I3|]. intros d. apply small_backoff_cons. }
    rewrite requests_cons. split; [|split; [intros _; lia|]].
    + destruct (get k) as [|status hdrs text]; simpl.
      * rewrite requests_cons. destruct (k <? _) eqn:E; simpl;
          [rewrite requests_cons|rewrite requests_cons; unfold requests]; simpl; lia.
      * destruct (status =? 404)%Z; simpl; [unfold requests; simpl; lia|].
        destruct (status =? 429)%Z; simpl.
        { rewrite !requests_cons. simpl. lia. }
        destruct (is_http_error status); simpl.
        -- rewrite requests_cons. destruct (k <? _); simpl;
             [rewrite requests_cons|rewrite requests_cons; unfold requests]; simpl; lia.
        -- destruct (Py.len _ <? 100); simpl; unfold requests; simpl; lia.
    + try rewrite backoffs_cons; simpl.
      assert (Forall (small_backoff (k :: attempts))
                (backoffs (fst (emit (Log (WarnAttemptFailed k))
                   (if k <? MAX_RETRIES - 1
                    then emit (Backoff (backoff_delay k))
                              (changelog_attempts get attempts)
                    else emit (Log WarnChangelogFailed) (ret None)))))) as Hretry.
      { destruct (k <? MAX_RETRIES - 1) eqn:E; simpl; [|constructor].
        constructor; [|exact I3'].
        exists k. split; [now left|]. apply Nat.ltb_lt in E. auto. }
      destruct (get k) as [|status hdrs text]; simpl.
      * apply Hretry.
      * destruct (status =? 404)%Z; simpl; [constructor|].
        destruct (status =? 429)%Z; simpl; [exact I3'|].
        destruct (is_http_error status); simpl; [apply Hretry|].
        destruct (Py.len _ <? 100); simpl; constructor.
Qed.

Lemma small_backoff_values d :
  small_backoff (seq 0 MAX_RETRIES) d -> d = 2%Z \/ d = 4%Z.
Proof.
  intros (k & _ & Hk & ->). unfold MAX_RETRIES in Hk.
  destruct k as [|[|k]]; [now left|now right|lia].
Qed.

End Attempts.

(** X2: whatever the origin answers, each of the three calls makes at
    least one and at most [MAX_RETRIES] requests. *)
Theorem calls_make_at_most_three_requests :
  (forall get time,
     1 <= requests (fst (discover_docs_from_github get time)) <= MAX_RETRIES) /\
  (forall file_path get,
     1 <= requests (fst (fetch_markdown_content file_path get)) <= MAX_RETRIES) /\
  (forall get,
     1 <= requests (fst (fetch_changelog get)) <= MAX_RETRIES).
Proof.
  split; [|split].
  - intros get time.
    destruct (discover_attempts_bounds get time (seq 0 MAX_RETRIES)) as (H1 & H2 & _).
    rewrite length_seq in H1. split; [apply H2; discriminate|exact H1].
  - intros file_path get.
    destruct (fetch_attempts_bounds file_path (path_to_safe_filename file_path) get
                (seq 0 MAX_RETRIES)) as (H1 & H2 & _).
    rewrite length_seq in H1. split; [apply H2; discriminate|exact H1].
  - intros get.
    destruct (changelog_attempts_bounds get (seq 0 MAX_RETRIES)) as (H1 & H2 & _).
    rewrite length_seq in H1. split; [apply H2; discriminate|exact H1].
Qed.

(** X3: every backoff delay of a call is 2 or 4 seconds (before the
    jitter); the cap [MAX_RETRY_DELAY] is never reached. *)
Theorem backoff_delays_are_two_and_four :
  (forall get time d,
     In d (backoffs (fst (discover_docs_from_github get time))) ->
     d = 2%Z \/ d = 4%Z) /\
  (forall file_path get d,
     In d (backoffs (fst (fetch_markdown_content file_path get))) ->
     d = 2%Z \/ d = 4%Z) /\
  (forall get d,
     In d (backoffs (fst (fetch_changelog get))) -> d = 2%Z \/ d = 4%Z).
Proof.
  split; [|split].
  - intros get time d Hd.
    destruct (discover_attempts_bounds get time (seq 0 MAX_RETRIES)) as (_ & _ & H).
    rewrite Forall_forall in H. apply small_backoff_values, H.
    now apply list_elem_of_In.
  - intros file_path get d Hd.
    destruct (fetch_attempts_bounds file_path (path_to_safe_filename file_path) get
                (seq 0 MAX_RETRIES)) as (_ & _ & H).
    rewrite Forall_forall in H. apply small_backoff_values, H.
    now apply list_elem_of_In.
  - intros get d Hd.
    destruct (changelog_attempts_bounds get (seq 0 MAX_RETRIES)) as (_ & _ & H).
    rewrite Forall_forall in H. apply small_backoff_values, H.
    now apply list_elem_of_In.
Qed.

(** ** The attempt loops: failures *)

Section Failures.

Lemma discover_request_error get time attempt rest :
  request_error 403 (get attempt) ->
  discover_attempts get time (attempt :: rest) =
  emit (Get tree_url)
    (emit (Log (WarnAttemptFailed attempt))
       (if attempt <? MAX_RETRIES - 1
        then emit (Backoff (backoff_delay attempt)) (discover_attempts get time rest)
        else throw (DiscoverFailed MAX_RETRIES))).
Proof.
  intros [H|(status & hdrs & body & H & He & Hs)]; simpl; rewrite H; [reflexivity|].
  rewrite He. destruct (Z.eqb_spec status 403); [contradiction|reflexivity].
Qed.

Lemma fetch_request_error file_path filename get attempt rest :
  request_error 429 (get attempt) ->
  fetch_attempts file_path filename get (attempt :: rest) =
  emit (Get (raw_url file_path))
    (emit (Log (WarnAttemptFailed attempt))
       (if attempt <? MAX_RETRIES - 1
        then emit (Backoff (backoff_delay attempt))
                  (fetch_attempts file_path filename get rest)
        else throw (FetchFailedAfter filename MAX_RETRIES))).
Proof.
  intros [H|(status & hdrs & body & H & He & Hs)]; simpl; rewrite H; [reflexivity|].
  rewrite He. destruct (Z.eqb_spec status 429); [contradiction|reflexivity].
Qed.

Lemma changelog_request_error get attempt rest :
  request_error 429 (get attempt) ->
  (forall hdrs body, get attempt <> Response 404 hdrs body) ->
  changelog_attempts get (attempt :: rest) =
  emit (Get changelog_url)
    (emit (Log (WarnAttemptFailed attempt))
       (if attempt <? MAX_RETRIES - 1
        then emit (Backoff (backoff_delay attempt)) (changelog_attempts get rest)
        else emit (Log WarnChangelogFailed) (ret None))).
Proof.
  intros [H|(status & hdrs & body & H & He & Hs)] H404; simpl; rewrite H;
    [reflexivity|].
  rewrite He. destruct (Z.eqb_spec status 404) as [->|_].
  { now destruct (H404 hdrs body). }
  destruct (Z.eqb_spec status 429); [contradiction|reflexivity].
Qed.

End Failures.

(** X4: when every request of a call ends in an error (the request
    fails, or the status is an error status that is not handled
    apart), the call makes three requests with the backoff delays 2
    and 4 between them; then the discovery and the fetch of a file
    raise, and the fetch of the changelog returns nothing. *)
Theorem persistent_errors_exhaust_the_attempts :
  (forall get time,
     (forall k, k < MAX_RETRIES -> request_error 403 (get k)) ->
     discover_docs_from_github get time =
     ([Get tree_url; Log (WarnAttemptFailed 0); Backoff 2;
       Get tree_url; Log (WarnAttemptFailed 1); Backoff 4;
       Get tree_url; Log (WarnAttemptFailed 2)],
      Raise (DiscoverFailed 3))) /\
  (forall file_path get,
     (forall k, k < MAX_RETRIES -> request_error 429 (get k)) ->
     fetch_markdown_content file_path get =
     ([Get (raw_url file_path); Log (WarnAttemptFailed 0); Backoff 2;
       Get (raw_url file_path); Log (WarnAttemptFailed 1); Backoff 4;
       Get (raw_url file_path); Log (WarnAttemptFailed 2)],
      Raise (FetchFailedAfter (path_to_safe_filename file_path) 3))) /\
  (forall get,
     (forall k, k < MAX_RETRIES -> request_error 429 (get k)) ->
     (forall k hdrs body, get k <> Response 404 hdrs body) ->
     fetch_changelog get =
     ([Get changelog_url; Log (WarnAttemptFailed 0); Backoff 2;
       Get changelog_url; Log (WarnAttemptFailed 1); Backoff 4;
       Get changelog_url; Log (WarnAttemptFailed 2); Log WarnChangelogFailed],
      Return None)).
Proof.
  split; [|split].
  - intros get time H. unfold discover_docs_from_github. simpl seq.
    rewrite !discover_request_error by (apply H; unfold MAX_RETRIES; lia).
    reflexivity.
  - intros file_path get H. unfold fetch_markdown_content. simpl seq.
    rewrite !fetch_request_error by (apply H; unfold MAX_RETRIES; lia).
    reflexivity.
  - intros get H H404. unfold fetch_changelog. simpl seq.
    rewrite !changelog_request_error
      by (try apply H404; apply H; unfold MAX_RETRIES; lia).
    reflexivity.
Qed.

(** X5: a 403 answer to the tree call without a usable reset time (no
    header, or a wait that is not between 1 and 299 seconds) ends the
    discovery at once with the rate-limit error, and the run exits
    with code 1 and leaves the output directory as it was. *)
Theorem unusable_rate_limit_is_fatal (o : origin) (c : clock) (m : manifest)
    (docs_dir : gmap string string) :
  unusable_reset (unix_time c 0) (tree_get o 0) ->
  snd (discover_docs_from_github (tree_get o) (unix_time c)) = Raise RateLimitExceeded /\
  requests (fst (discover_docs_from_github (tree_get o) (unix_time c))) = 1 /\
  sleeps (fst (discover_docs_from_github (tree_get o) (unix_time c))) = [] /\
  backoffs (fst (discover_docs_from_github (tree_get o) (unix_time c))) = [] /\
  exit_code (main o c m docs_dir) = 1%Z /\
  final_disk (main o c m docs_dir) = docs_dir /\
  saved_manifest (main o c m docs_dir) = None.
Proof.
  intros (hdrs & data & Hg & Hw).
  assert (discover_docs_from_github (tree_get o) (unix_time c) =
          (Get tree_url ::
             match x_ratelimit_reset hdrs with
             | Some reset => [Log (WarnRateLimited (reset - unix_time c 0 + 1))]
             | None => []
             end,
           Raise RateLimitExceeded)) as E.
  { unfold discover_docs_from_github. simpl. rewrite Hg. simpl.
    destruct (x_ratelimit_reset hdrs) as [reset|]; [|reflexivity].
    destruct (Z.ltb_spec 0 (reset - unix_time c 0 + 1));
      destruct (Z.ltb_spec (reset - unix_time c 0 + 1) 300);
      try reflexivity; lia. }
  rewrite E. simpl.
  split; [reflexivity|]. split; [now destruct (x_ratelimit_reset hdrs)|].
  split; [now destruct (x_ratelimit_reset hdrs)|].
  split; [now destruct (x_ratelimit_reset hdrs)|].
  unfold main. rewrite E. repeat split.
Qed.

(** ** What the fetches return *)

Section Returned.

Lemma fetch_attempts_validated file_path filename get attempts f X :
  snd (fetch_attempts file_path filename get attempts) = Return (f, X) ->
  validate_markdown_content X filename = Return tt /\
  exists k status hdrs,
    In k attempts /\ get k = Response status hdrs X /\
    is_http_error status = false.
Proof.
  clear sha256 json_loads.
  induction attempts as [|k attempts IH]; simpl; [discriminate|].
  assert (snd (fetch_attempts file_path filename get attempts) = Return (f, X) ->
          validate_markdown_content X filename = Return tt /\
          exists k0 status hdrs,
            (k = k0 \/ In k0 attempts) /\ get k0 = Response status hdrs X /\
            is_http_error status = false) as Hrest.
  { intros H. destruct (IH H) as (Hv & k0 & st & h & Hk & Hr).
    split; [exact Hv|]. exists k0, st, h. tauto. }
  destruct (get k) as [|status hdrs content] eqn:G; simpl.
  - destruct (k <? _); simpl; [exact Hrest|discriminate].
  - destruct (status =? 429)%Z; simpl; [exact Hrest|].
    destruct (is_http_error status) eqn:He; simpl.
    + destruct (k <? _); simpl; [exact Hrest|discriminate].
    + destruct (validate_markdown_content content filename) as [[]|e] eqn:Hv;
        simpl; [|discriminate].
      intros [= _ <-]. split; [exact Hv|]. exists k, status, hdrs. tauto.
Qed.


(** The lines of a text that begins with a line. *)
Lemma split_first_line line rest :
  Py.contains line nl = false ->
  PyText.split (line +:+ nl +:+ rest) "010" = line :: PyText.split rest "010".
Proof.
  induction line as [|ch line IH]; intros H.
  - reflexivity.
  - rewrite contains_cons in H. apply orb_false_iff in H as [Hc Hl].
    simpl in Hc. rewrite andb_true_r in Hc.
    rewrite app_cons. simpl. rewrite Hc. now rewrite (IH Hl).
Qed.

Lemma split_empty_line rest :
  PyText.split (nl +:+ rest) "010" = "" :: PyText.split rest "010".
Proof. reflexivity. Qed.

Lemma changelog_content_lines text :
  exists rest,
    PyText.split (changelog_header +:+ text) "010" =
    "# Gemini CLI Changelog" :: "" ::
    "> **Source**: https://github.com/google-gemini/gemini-cli/blob/main/CHANGELOG.md"
    :: rest.
Proof.
  unfold changelog_header. rewrite !app_assoc_str.
  rewrite split_first_line by reflexivity.
  rewrite split_empty_line.
  rewrite split_first_line by reflexivity.
  eauto.
Qed.

End Returned.

(** X6: a text that the fetch of a file returns was received with a
    status that is no error and was accepted by the validator, and it
    comes with the logical name of the path; a text that the validator
    refuses ends the call at once, without a further request. *)
Theorem fetch_returns_validated_text :
  (forall file_path get f X,
     snd (fetch_markdown_content file_path get) = Return (f, X) ->
     f = path_to_safe_filename file_path /\
     validate_markdown_content X (path_to_safe_filename file_path) = Return tt /\
     exists k status hdrs,
       k < MAX_RETRIES /\ get k = Response status hdrs X /\
       is_http_error status = false) /\
  (forall file_path (get : nat -> http_result string) status hdrs content e,
     get 0 = Response status hdrs content ->
     status <> 429%Z -> is_http_error status = false ->
     validate_markdown_content content (path_to_safe_filename file_path) = Raise e ->
     fetch_markdown_content file_path get =
     ([Get (raw_url file_path);
       Log (ErrorValidationFailed (path_to_safe_filename file_path))],
      Raise e)).
Proof.
  split.
  - intros file_path get f X H. unfold fetch_markdown_content in H.
    split; [exact (fetch_attempts_name _ _ _ _ _ _ H)|].
    destruct (fetch_attempts_validated _ _ _ _ _ _ H) as (Hv & k & st & h & Hk & Hr).
    split; [exact Hv|]. exists k, st, h. split; [|exact Hr].
    apply in_seq in Hk. lia.
  - intros file_path get status hdrs content e Hg Hs He Hv.
    unfold fetch_markdown_content. simpl. rewrite Hg, He, Hv.
    destruct (Z.eqb_spec status 429); [contradiction|reflexivity].
Qed.


(** X8: the content recorded for the changelog, the header followed by
    the text received, is a text that the validator accepts, whatever
    the text received is. *)
Theorem changelog_content_passes_validator (text filename : string) :
  validate_markdown_content (changelog_header +:+ text) filename = Return tt.
Proof.
  clear sha256 json_loads.
  assert (looks_like_html (changelog_header +:+ text) = false) as Hh by reflexivity.
  pose proof (changelog_content_long text) as Hl.
  rewrite (validate_plain _ filename Hh) by lia.
  destruct (changelog_content_lines text) as [rest Hs].
  assert (2 <= indicator_count (changelog_header +:+ text)) as Hc.
  { unfold indicator_count.
    apply (two_distinct_members _ "# " "> "); [| |discriminate].
    - apply (indicators_hit _ "# Gemini CLI Changelog"); [|simpl; tauto|reflexivity].
      unfold scanned_lines. rewrite Hs. simpl. tauto.
    - apply (indicators_hit _
        "> **Source**: https://github.com/google-gemini/gemini-cli/blob/main/CHANGELOG.md");
        [|simpl; tauto|reflexivity].
      unfold scanned_lines. rewrite Hs. simpl. tauto. }
  destruct (Nat.ltb_spec (indicator_count (changelog_header +:+ text)) 2);
    [lia|reflexivity].
Qed.

(** X9: a logical name has no directory separator, ends in [.md], is
    not the name of the manifest file, and is not changed when the
    derivation is applied to a path that has no separator and ends in
    [.md]. *)
Theorem safe_filename_is_a_plain_markdown_name (file_path : string) :
  Py.contains (path_to_safe_filename file_path) "/" = false /\
  Py.endswith (path_to_safe_filename file_path) ".md" = true /\
  path_to_safe_filename file_path <> MANIFEST_FILE /\
  (Py.contains file_path "/" = false -> Py.endswith file_path ".md" = true ->
   path_to_safe_filename file_path = file_path).
Proof.
  split; [apply safe_filename_no_slash|]. split; [apply safe_filename_ends_md|].
  split; [apply safe_filename_not_manifest|].
  intros Hs Hm. unfold path_to_safe_filename.
  rewrite (no_slash_not_under_docs _ Hs), Hm.
  pose proof (endswith_split _ _ Hm) as E. simpl Py.len in E.
  assert (Py.contains (Py.slice_to_neg 3 file_path) "/" = false) as Hn.
  { destruct (Py.contains (Py.slice_to_neg 3 file_path) "/") eqn:C; [|reflexivity].
    rewrite E, (contains_app_l _ ".md" _ C) in Hs. discriminate. }
  rewrite (replace_slash_id _ Hn). now symmetry.
Qed.

(** ** The run: what is written, kept and removed *)

Section RunFacts.

Variables (o : origin) (c : clock) (m : manifest).

Lemma sync_manifest_file docs_dir doc_files :
  exists m',
    saved_manifest (sync o c m docs_dir doc_files) = Some m' /\
    final_disk (sync o c m docs_dir doc_files) !! MANIFEST_FILE = Some (json_dumps m') /\
    manifest_last_updated m' = Some (now_save c) /\
    files m' = new_files (fetch_all o c m docs_dir doc_files) /\
    metadata m' =
    Some {| total_files_discovered := length doc_files;
            files_fetched_successfully :=
              successful (fetch_all o c m docs_dir doc_files);
            files_failed := failed (fetch_all o c m docs_dir doc_files);
            failed_files := failed_pages (fetch_all o c m docs_dir doc_files);
            total_files := size (fetched_files (fetch_all o c m docs_dir doc_files)) |}.
Proof.
  unfold sync. destruct (cleanup_old_files _ _ _). simpl.
  eexists. split; [reflexivity|]. rewrite lookup_insert_eq. simpl. auto.
Qed.



(** A name written holds a text fetched for it. *)
Lemma process_docs_written total paths i st n :
  In n (written (process_docs o c m total i paths st)) ->
  (In n (written st) /\
   disk (process_docs o c m total i paths st) !! n = disk st !! n) \/
  exists p X,
    In p paths /\ path_to_safe_filename p = n /\
    fetched_content (raw_get o p) p = Some X /\
    disk (process_docs o c m total i paths st) !! n = Some X.
Proof.
  clear json_loads json_dumps.
  revert i st. induction paths as [|q paths IH]; intros i st H; simpl in *; [auto|].
  destruct (IH _ _ H) as [[Hw Hd]|(p & X & Hp & Hr)];
    [|right; exists p, X; tauto].
  rewrite Hd. clear H Hd.
  destruct (fetched_content (raw_get o q) q) as [Y|] eqn:E.
  - rewrite (process_doc_success _ _ _ _ _ _ _ _ E) in *. simpl in *.
    rewrite compare_and_save_written in Hw. rewrite compare_and_save_disk.
    destruct (content_has_changed _ _).
    + destruct (decide (path_to_safe_filename q = n)) as [Hn|Hn].
      * right. exists q, Y. subst n. rewrite lookup_insert_eq. auto.
      * left. rewrite lookup_insert_ne by exact Hn. split; [|reflexivity].
        apply in_app_or in Hw as [Hw|[Hw|[]]]; [exact Hw|contradiction].
    + rewrite app_nil_r in Hw. auto.
  - rewrite (process_doc_failure _ _ _ _ _ _ _ E) in *. simpl in *. auto.
Qed.

(** The entries of the loop belong to the paths they name. *)
Lemma process_docs_entries total paths i st n e :
  new_files (process_docs o c m total i paths st) !! n = Some e ->
  new_files st !! n = Some e \/ (In (original_path e) paths /\ entry_of_fetch o n e).
Proof.
  clear json_loads json_dumps.
  revert i st. induction paths as [|q paths IH]; intros i st H; simpl in *; [auto|].
  destruct (IH _ _ H) as [Hs|[Hp He]]; [|right; tauto]. clear H.
  destruct (fetched_content (raw_get o q) q) as [Y|] eqn:E.
  - rewrite (process_doc_success _ _ _ _ _ _ _ _ E) in Hs. simpl in Hs.
    destruct (decide (path_to_safe_filename q = n)) as [Hn|Hn].
    + subst n. rewrite lookup_insert_eq in Hs. injection Hs as <-.
      right. split; [now left|]. unfold entry_of_fetch, doc_entry. simpl.
      repeat split; eauto. exists Y. split; [exact E|].
      now rewrite compare_and_save_hash.
    + rewrite lookup_insert_ne in Hs by exact Hn. auto.
  - rewrite (process_doc_failure _ _ _ _ _ _ _ E) in Hs. auto.
Qed.

(** The files of the directory stay, and a fetched name has a file,
    when the digest of a text is never the empty string. *)
Lemma process_docs_on_disk total (docs_dir : gmap string string) paths i st :
  (forall X, sha256 X <> "") ->
  (forall n, n ∈ dom (files m) -> is_Some (docs_dir !! n)) ->
  (forall n, is_Some (docs_dir !! n) -> is_Some (disk st !! n)) ->
  (forall n, n ∈ fetched_files st -> is_Some (disk st !! n)) ->
  let st' := process_docs o c m total i paths st in
  (forall n, is_Some (docs_dir !! n) -> is_Some (disk st' !! n)) /\
  (forall n, n ∈ fetched_files st' -> is_Some (disk st' !! n)).
Proof.
  clear json_loads json_dumps.
  intros Hsha Hprev. cbv zeta. revert i st.
  induction paths as [|q paths IH]; intros i st Hd Hf; simpl; [auto|].
  apply IH; destruct (fetched_content (raw_get o q) q) as [Y|] eqn:E;
    try (rewrite (process_doc_failure _ _ _ _ _ _ _ E); assumption);
    rewrite (process_doc_success _ _ _ _ _ _ _ _ E); simpl;
    rewrite compare_and_save_disk.
  - intros n Hn. destruct (content_has_changed _ _); [|auto].
    rewrite lookup_insert. case_decide; eauto.
  - intros n Hn. destruct (content_has_changed Y _) eqn:Hc.
    + rewrite lookup_insert. case_decide; [eauto|]. apply Hf. set_solver.
    + apply elem_of_union in Hn as [Hn|Hn]; [|auto].
      apply elem_of_singleton in Hn. subst n. apply Hd, Hprev.
      unfold content_has_changed in Hc. apply negb_false_iff, String.eqb_eq in Hc.
      apply elem_of_dom. unfold old_hash, old_entry in Hc.
      destruct (files m !! path_to_safe_filename q); [eauto|].
      simpl in Hc. now destruct (Hsha Y).
Qed.

Variables (docs_dir : gmap string string) (doc_files : list string).



Lemma fetch_all_written n :
  In n (written (fetch_all o c m docs_dir doc_files)) ->
  exists X,
    disk (fetch_all o c m docs_dir doc_files) !! n = Some X /\
    ((exists p, In p doc_files /\ path_to_safe_filename p = n /\
                fetched_content (raw_get o p) p = Some X) \/
     (n = changelog_filename /\ fetched_changelog (changelog_get o) = Some X)).
Proof.
  unfold fetch_all.
  set (st := process_docs o c m (length doc_files) 1 doc_files (initial_state docs_dir)).
  assert (In n (written st) ->
          exists X, disk st !! n = Some X /\
                    exists p, In p doc_files /\ path_to_safe_filename p = n /\
                              fetched_content (raw_get o p) p = Some X) as Hdocs.
  { intros H. destruct (process_docs_written _ _ _ _ _ H)
      as [[[] _]|(p & X & Hp & Hn & Hf & Hd)]. eauto 8. }
  destruct (fetched_changelog (changelog_get o)) as [Y|] eqn:E.
  - rewrite (process_changelog_success _ _ _ _ _ E). simpl.
    rewrite compare_and_save_written, compare_and_save_disk.
    destruct (content_has_changed _ _).
    + intros H. destruct (decide (changelog_filename = n)) as [<-|Hn].
      * exists Y. rewrite lookup_insert_eq. auto.
      * rewrite lookup_insert_ne by exact Hn.
        apply in_app_or in H as [H|[H|[]]]; [|contradiction].
        destruct (Hdocs H) as (X & Hd & Hp). eauto.
    + rewrite app_nil_r. intros H. destruct (Hdocs H) as (X & Hd & Hp). eauto.
  - rewrite (process_changelog_failure _ _ _ _ E). simpl.
    intros H. destruct (Hdocs H) as (X & Hd & Hp). eauto.
Qed.

Lemma fetch_all_entries n e :
  new_files (fetch_all o c m docs_dir doc_files) !! n = Some e ->
  (In (original_path e) doc_files /\ entry_of_fetch o n e) \/
  (n = changelog_filename /\ original_path e = "CHANGELOG.md" /\
   source e = Some "gemini-cli-repository" /\ is_Some (last_updated e) /\
   exists X, fetched_changelog (changelog_get o) = Some X /\
             hash e = Some (sha256 X)).
Proof.
  unfold fetch_all.
  set (st := process_docs o c m (length doc_files) 1 doc_files (initial_state docs_dir)).
  assert (new_files st !! n = Some e ->
          In (original_path e) doc_files /\ entry_of_fetch o n e) as Hdocs.
  { intros H. destruct (process_docs_entries _ _ _ _ _ _ H) as [H0|H0]; [|exact H0].
    simpl in H0. rewrite lookup_empty in H0. discriminate. }
  destruct (fetched_changelog (changelog_get o)) as [Y|] eqn:E.
  - rewrite (process_changelog_success _ _ _ _ _ E). simpl.
    destruct (decide (changelog_filename = n)) as [<-|Hn].
    + rewrite lookup_insert_eq. intros [= <-]. right.
      unfold changelog_entry. simpl. repeat split; eauto.
      exists Y. split; [reflexivity|]. now rewrite compare_and_save_hash.
    + rewrite lookup_insert_ne by exact Hn. auto.
  - rewrite (process_changelog_failure _ _ _ _ E). simpl. auto.
Qed.

Lemma fetch_all_on_disk :
  (forall X, sha256 X <> "") ->
  (forall n, n ∈ dom (files m) -> is_Some (docs_dir !! n)) ->
  forall n, n ∈ fetched_files (fetch_all o c m docs_dir doc_files) ->
            is_Some (disk (fetch_all o c m docs_dir doc_files) !! n).
Proof.
  clear json_loads json_dumps.
  intros Hsha Hprev. unfold fetch_all.
  destruct (process_docs_on_disk (length doc_files) docs_dir doc_files 1
              (initial_state docs_dir) Hsha Hprev) as [Hd Hf]; simpl; auto.
  { intros n Hn. set_solver. }
  cbv zeta in *.
  destruct (fetched_changelog (changelog_get o)) as [Y|] eqn:E.
  - rewrite (process_changelog_success _ _ _ _ _ E). simpl.
    rewrite compare_and_save_disk. intros n Hn.
    destruct (content_has_changed Y _) eqn:Hc.
    + rewrite lookup_insert. case_decide; [eauto|]. apply Hf. set_solver.
    + apply elem_of_union in Hn as [Hn|Hn]; [|auto].
      apply elem_of_singleton in Hn. subst n. apply Hd, Hprev.
      unfold content_has_changed in Hc. apply negb_false_iff, String.eqb_eq in Hc.
      apply elem_of_dom. unfold old_hash, old_entry in Hc.
      destruct (files m !! changelog_filename); [eauto|].
      simpl in Hc. now destruct (Hsha Y).
  - rewrite (process_changelog_failure _ _ _ _ E). simpl. exact Hf.
Qed.

End RunFacts.

(** X10: on a polite origin, a run leaves alone every file that is
    neither a file fetched in this run, nor a key of the previous
    manifest, nor the manifest file; and it removes only keys of the
    previous manifest that were not fetched. *)
Theorem run_leaves_other_files_alone (o : origin) (c : clock) (m : manifest)
    (docs_dir : gmap string string) (n : string) :
  polite_origin o ->
  ((n ∉ dom (files m)) -> (n ∉ fetched (main o c m docs_dir)) ->
   n <> MANIFEST_FILE ->
   final_disk (main o c m docs_dir) !! n = docs_dir !! n) /\
  ((n ∈ removed (main o c m docs_dir)) ->
   (n ∈ dom (files m)) /\ (n ∉ fetched (main o c m docs_dir)) /\
   n <> MANIFEST_FILE /\
   final_disk (main o c m docs_dir) !! n = None).
Proof.
  clear json_loads.
  intros _.
  destruct (main_cases o c m docs_dir)
    as [(_ & _ & Hd & _ & _ & _ & Hr)|(l & _ & _ & _ & Hd & _ & Hf & _ & Hr)];
    cbv zeta in *.
  - rewrite Hd, Hr. split; [reflexivity|]. intros H. set_solver.
  - rewrite Hd, Hr, Hf, sync_fetched, sync_removed.
    destruct (cleanup_old_files_spec m (disk (fetch_all o c m docs_dir l))
                (fetched_files (fetch_all o c m docs_dir l)) n) as (C1 & C2 & C3).
    cbv zeta in *. split.
    + intros Hn Hnf Hm. rewrite (sync_final_disk _ _ _ _ _ _ Hm).
      rewrite C3 by tauto. now apply fetch_all_frame.
    + intros H. apply C1 in H as [(H1 & H2 & H3) _].
      split; [exact H1|]. split; [exact H2|]. split; [exact H3|].
      rewrite (sync_final_disk _ _ _ _ _ _ H3). apply C2. auto.
Qed.




(** X14: on a polite origin, when the digest of a text is never the
    empty string and every key of the previous manifest has a file in
    the directory, then after the run every key of the saved manifest
    has a file in the directory. *)
Theorem manifest_keys_have_files (o : origin) (c : clock) (m : manifest)
    (docs_dir : gmap string string) (m' : manifest) (n : string) :
  polite_origin o ->
  (forall X, sha256 X <> "") ->
  (forall k, (k ∈ dom (files m)) -> is_Some (docs_dir !! k)) ->
  saved_manifest (main o c m docs_dir) = Some m' ->
  (n ∈ dom (files m')) ->
  is_Some (final_disk (main o c m docs_dir) !! n).
Proof.
  clear json_loads.
  intros _.
  intros Hsha Hprev Hm' Hn.
  destruct (main_cases o c m docs_dir)
    as [(_ & _ & _ & Hs & _)|(l & _ & _ & _ & Hdisk & Hsm & _)]; cbv zeta in *;
    [congruence|].
  rewrite Hdisk. rewrite Hsm in Hm'.
  destruct (sync_manifest_file o c m docs_dir l) as (m2 & H1 & H2 & _ & H4 & _).
  rewrite H1 in Hm'. injection Hm' as <-.
  destruct (decide (n = MANIFEST_FILE)) as [->|Hnm]; [rewrite H2; eauto|].
  rewrite (sync_final_disk _ _ _ _ _ _ Hnm).
  rewrite H4, fetch_all_dom in Hn.
  destruct (cleanup_old_files_spec m (disk (fetch_all o c m docs_dir l))
              (fetched_files (fetch_all o c m docs_dir l)) n) as (_ & _ & C3).
  rewrite C3 by tauto. now apply fetch_all_on_disk.
Qed.

(** X15: on a polite origin, every entry of the saved manifest belongs
    to a fetch of the run: either its key is the logical name of its
    original path, a discovered path, and its hash is the digest of the
    text fetched from this path, or it is the entry of the changelog,
    with the digest of the changelog content. *)
Theorem manifest_entries_match_fetched_texts (o : origin) (c : clock)
    (m : manifest) (docs_dir : gmap string string) (m' : manifest)
    (n : string) (e : manifest_entry) :
  polite_origin o ->
  saved_manifest (main o c m docs_dir) = Some m' ->
  files m' !! n = Some e ->
  (entry_of_fetch o n e /\
   exists doc_files,
     snd (discover_docs_from_github (tree_get o) (unix_time c)) = Return doc_files /\
     In (original_path e) doc_files) \/
  (n = changelog_filename /\ original_path e = "CHANGELOG.md" /\
   source e = Some "gemini-cli-repository" /\ is_Some (last_updated e) /\
   exists X, fetched_changelog (changelog_get o) = Some X /\
             hash e = Some (sha256 X)).
Proof.
  intros _.
  intros Hm' He.
  destruct (main_cases o c m docs_dir)
    as [(_ & _ & _ & Hs & _)|(l & Hl & _ & _ & _ & Hsm & _)]; cbv zeta in *;
    [congruence|].
  rewrite Hsm in Hm'.
  destruct (sync_saved_manifest o c m docs_dir l) as (m2 & H1 & H2).
  rewrite H1 in Hm'. injection Hm' as <-. rewrite H2 in He.
  destruct (fetch_all_entries o c m docs_dir l n e He) as [[Hp Hf]|Hc];
    [left|right; exact Hc].
  split; [exact Hf|]. exists l. auto.
Qed.

(** ** Steps, continued *)

Section MoreSteps.

Lemma fetched_content_valid get p X :
  fetched_content get p = Some X ->
  validate_markdown_content X (path_to_safe_filename p) = Return tt.
Proof.
  intros H. apply fetched_content_Some in H. unfold fetch_markdown_content in H.
  now destruct (fetch_attempts_validated _ _ _ _ _ _ H).
Qed.

Lemma cleanup_result_lookup (m : manifest) (docs_dir : gmap string string)
    (current_files : gset string) (n : string) :
  (cleanup_old_files docs_dir current_files m).1 !! n =
  if decide ((n ∈ dom (files m)) /\ (n ∉ current_files) /\ n <> MANIFEST_FILE)
  then None else docs_dir !! n.
Proof.
  destruct (cleanup_old_files_spec m docs_dir current_files n) as (_ & C2 & C3).
  cbv zeta in *. case_decide; auto.
Qed.

End MoreSteps.

(** X16: reconciliation is idempotent: run again on the directory it
    left, with the same names, it removes nothing and leaves the
    directory as it is; and it never adds a file. *)
Theorem cleanup_is_idempotent (m : manifest) (docs_dir : gmap string string)
    (current_files : gset string) :
  let r := cleanup_old_files docs_dir current_files m in
  cleanup_old_files r.1 current_files m = (r.1, ∅) /\
  dom r.1 ⊆ dom docs_dir.
Proof.
  cbv zeta. split.
  - apply injective_projections.
    + apply map_eq. intros n. simpl. rewrite !cleanup_result_lookup.
      repeat case_decide; try reflexivity; tauto.
    + apply set_eq. intros n.
      destruct (cleanup_old_files_spec m
                  (cleanup_old_files docs_dir current_files m).1 current_files n)
        as (C1 & _). cbv zeta in C1. rewrite C1.
      rewrite cleanup_result_lookup. split; [|set_solver].
      intros [Ho Hs]. rewrite decide_True in Hs by exact Ho.
      now destruct Hs.
  - intros n Hn. apply elem_of_dom in Hn. apply elem_of_dom.
    rewrite cleanup_result_lookup in Hn. case_decide; [now destruct Hn|exact Hn].
Qed.

(** X17: when the answers for a file are sleepable, a file whose fetched
    text has a digest other than the hash that the previous manifest
    records for its logical name (the empty string when there is no
    entry) is written with this text, and its entry gets the digest and
    the time of the step. *)
Theorem changed_files_are_written (o : origin) (c : clock) (m : manifest)
    (total i : nat) (file_path content : string) (st : run_state) :
  (forall k, k < MAX_RETRIES -> sleepable (raw_get o file_path k)) ->
  fetched_content (raw_get o file_path) file_path = Some content ->
  sha256 content <> old_hash m (path_to_safe_filename file_path) ->
  let st' := process_doc o c m total i file_path st in
  disk st' = <[path_to_safe_filename file_path := content]> (disk st) /\
  written st' = written st ++ [path_to_safe_filename file_path] /\
  new_files st' !! path_to_safe_filename file_path =
  Some {| original_path := file_path;
          github_url := github_blob_url file_path;
          hash := Some (sha256 content);
          last_updated := Some (now_doc c i);
          source := None |} /\
  successful st' = S (successful st) /\
  failed_pages st' = failed_pages st.
Proof.
  intros _ Hf Hne. cbv zeta.
  assert (content_has_changed content (old_hash m (path_to_safe_filename file_path))
          = true) as Hc.
  { unfold content_has_changed. apply negb_true_iff.
    destruct (String.eqb_spec (sha256 content)
                (old_hash m (path_to_safe_filename file_path))); congruence. }
  rewrite (process_doc_success _ _ _ _ _ _ _ _ Hf). simpl.
  rewrite compare_and_save_disk, compare_and_save_written, Hc.
  split; [reflexivity|]. split; [reflexivity|]. split; [|auto].
  rewrite lookup_insert_eq. unfold doc_entry, compare_and_save. now rewrite Hc.
Qed.

(** X18: on a polite origin, at the end of a run, a file that the run
    wrote holds a text fetched in this run for its name: a text that the
    validator accepted, or the content of the changelog; its name is
    among the names fetched, and it is not removed. *)
Theorem written_files_hold_fetched_texts (o : origin) (c : clock) (m : manifest)
    (docs_dir : gmap string string) (n : string) :
  polite_origin o ->
  In n (saved (main o c m docs_dir)) ->
  (n ∈ fetched (main o c m docs_dir)) /\
  (n ∉ removed (main o c m docs_dir)) /\
  exists X,
    final_disk (main o c m docs_dir) !! n = Some X /\
    ((exists p, path_to_safe_filename p = n /\
                fetched_content (raw_get o p) p = Some X /\
                validate_markdown_content X n = Return tt) \/
     (n = changelog_filename /\ fetched_changelog (changelog_get o) = Some X)).
Proof.
  clear json_loads.
  intros _.
  intros Hw.
  destruct (main_cases o c m docs_dir)
    as [(_ & _ & _ & _ & _ & Hs & _)|(l & _ & _ & _ & Hdisk & _ & Hf & Hs & Hr)];
    cbv zeta in *; rewrite Hs in Hw; [destruct Hw|].
  rewrite sync_saved in Hw. rewrite Hdisk, Hf, Hr, sync_fetched, sync_removed.
  destruct (fetch_all_written o c m docs_dir l n Hw) as (X & Hd & Hsrc).
  assert (n ∈ fetched_files (fetch_all o c m docs_dir l)) as Hin.
  { apply fetch_all_fetched. destruct Hsrc as [(p & Hp & Hn & Hx)|[Hn Hx]].
    - right. eauto.
    - left. rewrite Hx. eauto. }
  assert (n <> MANIFEST_FILE) as Hnm.
  { destruct Hsrc as [(p & _ & <- & _)|[-> _]];
      [apply safe_filename_not_manifest|discriminate]. }
  destruct (cleanup_old_files_spec m (disk (fetch_all o c m docs_dir l))
              (fetched_files (fetch_all o c m docs_dir l)) n) as (C1 & _ & C3).
  cbv zeta in *. split; [exact Hin|]. split; [rewrite C1; tauto|].
  exists X. split.
  - rewrite (sync_final_disk _ _ _ _ _ _ Hnm). rewrite C3 by tauto. exact Hd.
  - destruct Hsrc as [(p & Hp & Hn & Hx)|Hc]; [left|right; exact Hc].
    exists p. split; [exact Hn|]. split; [exact Hx|].
    rewrite <- Hn. now apply (fetched_content_valid (raw_get o p)).
Qed.

(** ** The repository name in the manifest *)

Section Repository.

Lemma after_class_run_split s :
  exists A,
    all_in_class A = true /\ s = A +:+ after_class_run s /\
    starts_in_class (after_class_run s) = false /\
    (starts_in_class s = true -> A <> "").
Proof.
  induction s as [|ch s (A & H1 & H2 & H3 & H4)].
  - exists "". repeat split; auto; discriminate.
  - simpl. destruct (in_repo_class ch) eqn:E.
    + exists (String ch A). simpl. rewrite E, H1.
      split; [reflexivity|]. split; [rewrite app_cons; now f_equal|].
      split; [exact H3|discriminate].
    + exists "". simpl. rewrite E. repeat split; auto; discriminate.
Qed.

Lemma after_class_run_app A r :
  all_in_class A = true -> starts_in_class r = false ->
  after_class_run (A +:+ r) = r.
Proof.
  induction A as [|ch A IH]; intros HA Hr.
  - destruct r as [|ch r]; [reflexivity|]. simpl in *. now rewrite Hr.
  - simpl in HA. apply andb_true_iff in HA as [Hc HA].
    rewrite app_cons. simpl. rewrite Hc. now apply IH.
Qed.

Lemma starts_in_class_app A r :
  A <> "" -> all_in_class A = true -> starts_in_class (A +:+ r) = true.
Proof.
  destruct A as [|ch A]; [congruence|]. intros _ H. simpl in H.
  apply andb_true_iff in H as [H _]. exact H.
Qed.

Lemma repo_format_ok_form s :
  repo_format_ok s = true <->
  exists A B,
    A <> "" /\ B <> "" /\ all_in_class A = true /\ all_in_class B = true /\
    (s = A +:+ "/" +:+ B \/ s = A +:+ "/" +:+ B +:+ nl).
Proof.
  unfold repo_format_ok. split.
  - intros H. apply andb_true_iff in H as [Hs H].
    destruct (after_class_run_split s) as (A & HA & Es & _ & HAne).
    destruct (after_class_run s) as [|ch r]; [discriminate|].
    apply andb_true_iff in H as [H He]. apply andb_true_iff in H as [Hc Hr].
    apply Ascii.eqb_eq in Hc. subst ch.
    destruct (after_class_run_split r) as (B & HB & Er & _ & HBne).
    exists A, B. split; [auto|]. split; [auto|]. split; [exact HA|].
    split; [exact HB|].
    assert (s = A +:+ "/" +:+ B +:+ after_class_run r) as Eq.
    { rewrite Es at 1. rewrite <- Er. reflexivity. }
    apply orb_true_iff in He as [He|He]; apply String.eqb_eq in He;
      rewrite He in Eq.
    + left. now rewrite app_empty_r in Eq.
    + now right.
  - intros (A & B & HA & HB & CA & CB & [->| ->]).
    + rewrite (starts_in_class_app A _ HA CA).
      rewrite (after_class_run_app A ("/" +:+ B) CA eq_refl).
      change ("/" +:+ B) with (String "/" B). simpl.
      rewrite <- (app_empty_r B) at 1.
      rewrite (starts_in_class_app B _ HB CB).
      rewrite <- (app_empty_r B).
      now rewrite (after_class_run_app B "" CB eq_refl).
    + rewrite (starts_in_class_app A _ HA CA).
      rewrite (after_class_run_app A ("/" +:+ B +:+ nl) CA eq_refl).
      change ("/" +:+ B +:+ nl) with (String "/" (B +:+ nl)). simpl.
      rewrite (starts_in_class_app B _ HB CB).
      now rewrite (after_class_run_app B nl CB eq_refl).
Qed.

End Repository.

(** X19: the repository name that [save_manifest] records always has
    the form checked by the pattern: two non-empty runs of letters,
    digits, underscores, dots and hyphens with one slash between them,
    and possibly a newline at the very end; a value of the environment
    that has this form is recorded as it is, any other value gives the
    warning and is replaced by the placeholder; the reference is
    recorded without a check. *)
Theorem recorded_repository_has_owner_name_form (env : environment) :
  let d := (describe_manifest env).2 in
  let warned := (describe_manifest env).1 in
  (exists A B,
     A <> "" /\ B <> "" /\ all_in_class A = true /\ all_in_class B = true /\
     (github_repository d = A +:+ "/" +:+ B \/
      github_repository d = A +:+ "/" +:+ B +:+ nl)) /\
  (forall repo, GITHUB_REPOSITORY env = Some repo ->
                repo_format_ok repo = true ->
                warned = false /\ github_repository d = repo) /\
  (forall repo, GITHUB_REPOSITORY env = Some repo ->
                repo_format_ok repo = false ->
                warned = true /\ github_repository d = DEFAULT_REPOSITORY) /\
  (GITHUB_REPOSITORY env = None ->
   warned = false /\ github_repository d = DEFAULT_REPOSITORY) /\
  github_ref d = default "main" (GITHUB_REF_NAME env) /\
  base_url d =
  "https://raw.githubusercontent.com/" +:+ github_repository d +:+ "/" +:+
  github_ref d +:+ "/docs/".
Proof.
  cbv zeta. unfold describe_manifest. simpl. split; [|split; [|split; [|split]]].
  - apply repo_format_ok_form.
    destruct (repo_format_ok (default DEFAULT_REPOSITORY (GITHUB_REPOSITORY env)))
      eqn:E; simpl; [exact E|reflexivity].
  - intros repo -> H. simpl. now rewrite H.
  - intros repo -> H. simpl. now rewrite H.
  - intros ->. simpl. auto.
  - auto.
Qed.

(** ** The validator looks at the head of a text *)

Section Head.

Lemma slice_to_app_long n s r :
  n <= Py.len s -> Py.slice_to n (s +:+ r) = Py.slice_to n s.
Proof.
  revert s. induction n as [|n IH]; intros s H; [reflexivity|].
  destruct s as [|ch s]; [unfold Py.len in H; simpl in H; lia|].
  rewrite app_cons. simpl. rewrite IH; [reflexivity|].
  unfold Py.len in *. simpl in H. lia.
Qed.

Lemma startswith_app_long s p r :
  Py.len p <= Py.len s -> Py.startswith (s +:+ r) p = Py.startswith s p.
Proof.
  revert s. induction p as [|a p IH]; intros s H; [reflexivity|].
  destruct s as [|ch s]; [unfold Py.len in H; simpl in H; lia|].
  rewrite app_cons. simpl. rewrite IH; [reflexivity|].
  unfold Py.len in *. simpl in H. lia.
Qed.

Lemma split_nonempty s sep : PyText.split s sep <> [].
Proof.
  induction s as [|ch s IH]; simpl; [discriminate|].
  destruct (Ascii.eqb ch sep); [discriminate|].
  destruct (PyText.split s sep); [contradiction|discriminate].
Qed.

(** The first [k] pieces of a text with more than [k] pieces do not
    depend on what follows the text. *)
Lemma split_app_head s r sep k :
  k < length (PyText.split s sep) ->
  firstn k (PyText.split (s +:+ r) sep) = firstn k (PyText.split s sep).
Proof.
  revert k. induction s as [|ch s IH]; intros k H.
  - simpl in H. assert (k = 0) as -> by lia. reflexivity.
  - destruct k as [|k]; [reflexivity|]. rewrite app_cons. simpl in *.
    destruct (Ascii.eqb ch sep).
    + simpl in *. rewrite IH by lia. reflexivity.
    + pose proof (split_nonempty s sep) as Hs.
      pose proof (split_nonempty (s +:+ r) sep) as Hsr.
      destruct (PyText.split s sep) as [|piece rest] eqn:E1; [contradiction|].
      destruct (PyText.split (s +:+ r) sep) as [|piece' rest'] eqn:E2; [contradiction|].
      simpl in H. specialize (IH (S k) ltac:(simpl; lia)). simpl in IH.
      injection IH as E3 E4. simpl. congruence.
Qed.

Lemma lstrip_app s r :
  PyText.lstrip s <> "" -> PyText.lstrip (s +:+ r) = PyText.lstrip s +:+ r.
Proof.
  induction s as [|ch s IH]; intros H; [now destruct H|].
  rewrite app_cons. simpl in *. destruct (PyText.isspace ch); [now apply IH|].
  now rewrite app_cons.
Qed.

Lemma strip_app_len s r :
  PyText.strip s <> "" ->
  Py.len (PyText.strip s) <= Py.len (PyText.strip (s +:+ r)).
Proof.
  intros H. unfold PyText.strip in *.
  assert (PyText.lstrip s <> "") as Hl.
  { intros E. rewrite E in H. now apply H. }
  rewrite (lstrip_app _ _ Hl). apply rstrip_app_len.
Qed.

End Head.

(** X20: the validator looks only at the head of a text: a text of at
    least 100 characters and more than 50 lines that it accepts is
    still accepted with anything put after it. *)
Theorem validator_ignores_the_tail (content tail filename : string) :
  validate_markdown_content content filename = Return tt ->
  100 <= Py.len content ->
  50 < length (PyText.split content "010") ->
  validate_markdown_content (content +:+ tail) filename = Return tt.
Proof.
  unfold validate_markdown_content. intros Hv Hlen Hlines.
  destruct (looks_like_html content) eqn:Hh; [discriminate|].
  destruct (Nat.ltb_spec (Py.len (PyText.strip content)) 50) as [|Hs]; [discriminate|].
  destruct (Nat.ltb_spec (indicator_count content) 2) as [|Hi]; [discriminate|].
  assert (looks_like_html (content +:+ tail) = false) as ->.
  { unfold looks_like_html in *.
    apply orb_false_iff in Hh as [Hh Hc]. apply orb_false_iff in Hh as [He Hd].
    rewrite (slice_to_app_long 100 _ _ Hlen), Hc.
    rewrite startswith_app_long, Hd by (simpl; lia).
    destruct content; [discriminate|reflexivity]. }
  assert (PyText.strip content <> "") as Hne.
  { intros E. rewrite E in Hs. unfold Py.len in Hs. simpl in Hs. lia. }
  pose proof (strip_app_len content tail Hne) as Hs'.
  destruct (Nat.ltb_spec (Py.len (PyText.strip (content +:+ tail))) 50); [lia|].
  assert (indicator_count (content +:+ tail) = indicator_count content) as ->.
  { unfold indicator_count, indicators, scanned_lines.
    now rewrite (split_app_head _ _ _ _ Hlines). }
  destruct (Nat.ltb_spec (indicator_count content) 2); [lia|reflexivity].
Qed.

(** ** What loading the manifest returns *)

(** X21: what [load_manifest] returns is a mapping with the key
    [files], with two exceptions: a manifest file that parses to a
    list with the item ["files"], or to a string in which [files]
    occurs, is returned as it is, without a warning. *)
Theorem load_manifest_returns_a_mapping_or_an_odd_value
    (docs_dir : gmap string string) :
  ((exists members,
      (load_manifest docs_dir).2 = JObj members /\ is_Some (members !! "files")) \/
   (exists text items,
      docs_dir !! MANIFEST_FILE = Some text /\ json_loads text = Some (JArr items) /\
      In (JStr "files") items /\ load_manifest docs_dir = ([], JArr items)) \/
   (exists text s,
      docs_dir !! MANIFEST_FILE = Some text /\ json_loads text = Some (JStr s) /\
      Py.contains s "files" = true /\ load_manifest docs_dir = ([], JStr s))) /\
  (forall text items,
     docs_dir !! MANIFEST_FILE = Some text -> json_loads text = Some (JArr items) ->
     In (JStr "files") items -> load_manifest docs_dir = ([], JArr items)) /\
  (forall text s,
     docs_dir !! MANIFEST_FILE = Some text -> json_loads text = Some (JStr s) ->
     Py.contains s "files" = true -> load_manifest docs_dir = ([], JStr s)).
Proof.
  assert (forall items,
            existsb (fun v => match v with
                              | JStr s => String.eqb s "files"
                              | _ => false
                              end) items = true <-> In (JStr "files") items) as Hex.
  { intros items. rewrite existsb_exists. split.
    - intros (v & Hv & Hs). destruct v; try discriminate.
      apply String.eqb_eq in Hs. now subst.
    - intros H. exists (JStr "files"). auto. }
  assert (empty_manifest = JObj (<["files" := JObj ∅]> (<["last_updated" := JNull]> ∅)))
    as Hempty by reflexivity.
  split; [|split].
  - unfold load_manifest, load_manifest_try.
    destruct (docs_dir !! MANIFEST_FILE) as [text|] eqn:Hd; simpl;
      [|left; eexists; split; [exact Hempty|rewrite lookup_insert_eq; eauto]].
    destruct (json_loads text) as [v|] eqn:Hl; simpl;
      [|left; eexists; split; [exact Hempty|rewrite lookup_insert_eq; eauto]].
    destruct v as [| | |s|items|members]; simpl;
      try (left; eexists; split; [exact Hempty|rewrite lookup_insert_eq; eauto]).
    + destruct (Py.contains s "files") eqn:Hc; simpl.
      * right. right. exists text, s. auto.
      * left. eexists. split; [exact Hempty|rewrite lookup_insert_eq; eauto].
    + destruct (existsb _ items) eqn:He; simpl.
      * right. left. exists text, items. rewrite <- Hex. auto.
      * left. eexists. split; [exact Hempty|rewrite lookup_insert_eq; eauto].
    + left. destruct (decide (is_Some (members !! "files"))) as [Hs|Hs].
      * rewrite (bool_decide_eq_true_2 _ Hs). simpl. eauto.
      * rewrite (bool_decide_eq_false_2 _ Hs). simpl. eexists.
        split; [reflexivity|]. rewrite lookup_insert_eq. eauto.
  - intros text items Hd Hl Hin. unfold load_manifest, load_manifest_try.
    rewrite Hd, Hl. simpl. apply Hex in Hin. now rewrite Hin.
  - intros text s Hd Hl Hc. unfold load_manifest, load_manifest_try.
    rewrite Hd, Hl. simpl. now rewrite Hc.
Qed.

End Sync.

(* ================================================================== *)
(** * The statements on the small origin, and the refuted readings *)
(* ================================================================== *)




(** C6, as stated, fails: a separator and a double underscore give the
    same logical name. *)
Lemma safe_filename_collision :
  ~ (forall p q,
       is_origin_path p = true -> is_origin_path q = true -> p <> q ->
       path_to_safe_filename p <> path_to_safe_filename q).
Proof.
  intros H.
  apply (H "docs/a/b.md" "docs/a__b.md"); [reflexivity|reflexivity|discriminate|reflexivity].
Qed.

Lemma safe_filename_injective_on_separator_safe_paths_witness :
  path_to_safe_filename "docs/cli/commands.md" <> path_to_safe_filename "docs/index.md" /\
  recover_normalized (path_to_safe_filename "docs/cli/commands.md") = "cli/commands".
Proof.
  destruct (safe_filename_injective_on_separator_safe_paths
              "docs/cli/commands.md" "docs/index.md") as (H1 & H2 & _);
    try reflexivity.
  split; [apply H1; discriminate|exact H2].
Defined.

(** C7, as stated, fails: the derivation applied to its output gives
    the output again. *)
Lemma safe_filename_reproduces_output :
  ~ (path_to_safe_filename (path_to_safe_filename "docs/cli/commands.md") <>
     path_to_safe_filename "docs/cli/commands.md").
Proof. intros H. apply H. reflexivity. Qed.

Lemma safe_filename_is_idempotent_witness :
  path_to_safe_filename (path_to_safe_filename "docs/cli/commands.md") <>
  "docs/cli/commands.md".
Proof.
  destruct safe_filename_is_idempotent as (_ & _ & _ & _ & H).
  apply H. reflexivity.
Defined.







(* ================================================================== *)
(** * The further properties on the small origin *)
(* ================================================================== *)

Lemma demo_origin_polite : polite_origin demo_origin.
Proof.
  split.
  - intros file_path k _ hdrs body w H. simpl in H.
    destruct (String.eqb file_path "docs/a.md"); [discriminate|].
    destruct (String.eqb file_path "docs/c.md"); discriminate.
  - intros k _ hdrs body w H. discriminate.
Qed.


Lemma demo_digest_not_empty X : demo_digest X <> "".
Proof. discriminate. Qed.

Lemma discovery_returns_sorted_origin_paths_witness :
  Sorted leb_true ["docs/a.md"; "docs/b.md"; "docs/c.md"] /\
  Forall (fun p => is_origin_path p = true) ["docs/a.md"; "docs/b.md"; "docs/c.md"].
Proof.
  destruct (discovery_returns_sorted_origin_paths (tree_get demo_origin)
              (fun _ => 0%Z) ["docs/a.md"; "docs/b.md"; "docs/c.md"])
    as (H1 & H2 & _); [vm_compute; reflexivity|].
  split; assumption.
Defined.

Lemma backoff_delays_are_two_and_four_witness : (4 = 2 \/ 4 = 4)%Z.
Proof.
  destruct backoff_delays_are_two_and_four as (_ & H & _).
  apply (H "docs/b.md" (fun _ => RequestFailed)). vm_compute. tauto.
Defined.

Lemma persistent_errors_exhaust_the_attempts_witness :
  snd (fetch_markdown_content "docs/b.md" (raw_get demo_origin "docs/b.md")) =
  Raise (FetchFailedAfter "b.md" 3).
Proof.
  destruct persistent_errors_exhaust_the_attempts as (_ & H & _).
  rewrite (H "docs/b.md" (raw_get demo_origin "docs/b.md")); [reflexivity|].
  intros k _. now left.
Defined.

Lemma unusable_rate_limit_is_fatal_witness :
  exit_code (main demo_digest demo_dumps demo_refused_origin
               (demo_clock "2025-02-02") demo_manifest demo_disk) = 1%Z /\
  final_disk (main demo_digest demo_dumps demo_refused_origin
                (demo_clock "2025-02-02") demo_manifest demo_disk) = demo_disk.
Proof.
  destruct (unusable_rate_limit_is_fatal demo_digest demo_dumps demo_refused_origin
              (demo_clock "2025-02-02") demo_manifest demo_disk)
    as (_ & _ & _ & _ & H1 & H2 & _).
  - exists no_headers, []. split; [reflexivity|exact I].
  - split; assumption.
Defined.

Lemma fetch_returns_validated_text_witness :
  validate_markdown_content (demo_markdown "A") "a.md" = Return tt /\
  fetch_markdown_content "docs/x.md" (fun _ => Response 200 no_headers "<html>") =
  ([Get (raw_url "docs/x.md"); Log (ErrorValidationFailed "x.md")],
   Raise (ValueError ReceivedHTML)).
Proof.
  destruct fetch_returns_validated_text as [H1 H2]. split.
  - destruct (H1 "docs/a.md" (raw_get demo_origin "docs/a.md") "a.md"
                (demo_markdown "A")) as (_ & Hv & _); [vm_compute; reflexivity|].
    exact Hv.
  - apply (H2 "docs/x.md" (fun _ => Response 200 no_headers "<html>")
              200%Z no_headers "<html>"); try reflexivity. discriminate.
Defined.


Lemma safe_filename_is_a_plain_markdown_name_witness :
  path_to_safe_filename "changelog.md" = "changelog.md".
Proof.
  destruct (safe_filename_is_a_plain_markdown_name "changelog.md") as (_ & _ & _ & H).
  apply H; reflexivity.
Defined.

Lemma run_leaves_other_files_alone_witness :
  final_disk (main demo_digest demo_dumps demo_origin (demo_clock "2025-02-02")
                demo_manifest (<["notes.txt" := "keep"]> demo_disk)) !! "notes.txt" =
  Some "keep".
Proof.
  destruct (run_leaves_other_files_alone demo_digest demo_dumps demo_origin
              (demo_clock "2025-02-02") demo_manifest
              (<["notes.txt" := "keep"]> demo_disk) "notes.txt"
              demo_origin_polite) as [H _].
  etransitivity; [apply H|vm_compute; reflexivity].
  - apply not_elem_of_dom. vm_compute. reflexivity.
  - intros Hn. apply (bool_decide_eq_true_2 _) in Hn. vm_compute in Hn. discriminate Hn.
  - discriminate.
Defined.




Lemma manifest_keys_have_files_witness :
  is_Some (final_disk (main demo_digest demo_dumps demo_origin
                         (demo_clock "2025-02-02") demo_manifest demo_disk) !! "c.md").
Proof.
  eapply (manifest_keys_have_files demo_digest demo_dumps demo_origin
            (demo_clock "2025-02-02") demo_manifest demo_disk _ "c.md"
            demo_origin_polite demo_digest_not_empty).
  - intros k Hk. apply elem_of_dom in Hk as [e He].
    destruct (decide (k = "a.md")) as [->|Ha]; [eexists; vm_compute; reflexivity|].
    destruct (decide (k = "b.md")) as [->|Hb]; [eexists; vm_compute; reflexivity|].
    unfold demo_manifest in He. simpl in He.
    rewrite lookup_insert_ne, lookup_singleton_ne in He by congruence. discriminate.
  - vm_compute. reflexivity.
  - apply elem_of_dom. eexists. vm_compute. reflexivity.
Defined.

Lemma manifest_entries_match_fetched_texts_witness :
  entry_of_fetch demo_digest demo_origin "c.md"
    {| original_path := "docs/c.md";
       github_url := github_blob_url "docs/c.md";
       hash := Some (demo_digest (demo_markdown "C"));
       last_updated := Some "2025-02-02";
       source := None |}.
Proof.
  destruct (manifest_entries_match_fetched_texts demo_digest demo_dumps demo_origin
              (demo_clock "2025-02-02") demo_manifest demo_disk _ "c.md"
              {| original_path := "docs/c.md";
                 github_url := github_blob_url "docs/c.md";
                 hash := Some (demo_digest (demo_markdown "C"));
                 last_updated := Some "2025-02-02";
                 source := None |}
              demo_origin_polite
              ltac:(vm_compute; reflexivity) ltac:(vm_compute; reflexivity))
    as [[H _]|(H & _)]; [exact H|discriminate H].
Defined.

Lemma changed_files_are_written_witness :
  disk (process_doc demo_digest demo_origin (demo_clock "2025-02-02") demo_manifest
          3 3 "docs/c.md" (initial_state demo_disk)) !! "c.md" =
  Some (demo_markdown "C").
Proof.
  destruct (changed_files_are_written demo_digest demo_origin
              (demo_clock "2025-02-02") demo_manifest 3 3 "docs/c.md"
              (demo_markdown "C") (initial_state demo_disk)) as (H & _).
  - intros k _ hdrs body w E. discriminate E.
  - vm_compute. reflexivity.
  - vm_compute. discriminate.
  - cbv zeta in H. rewrite H. apply lookup_insert_eq.
Defined.

Lemma written_files_hold_fetched_texts_witness :
  final_disk (main demo_digest demo_dumps demo_origin (demo_clock "2025-02-02")
                demo_manifest demo_disk) !! "c.md" = Some (demo_markdown "C").
Proof.
  destruct (written_files_hold_fetched_texts demo_digest demo_dumps demo_origin
              (demo_clock "2025-02-02") demo_manifest demo_disk "c.md")
    as (_ & _ & X & HX & _).
  - exact demo_origin_polite.
  - vm_compute. tauto.
  - rewrite HX. vm_compute in HX. injection HX as <-. reflexivity.
Defined.

Lemma recorded_repository_has_owner_name_form_witness :
  github_repository (describe_manifest demo_environment).2 = "someone/gemini-cli-docs".
Proof.
  destruct (recorded_repository_has_owner_name_form demo_environment)
    as (_ & H & _).
  apply (H "someone/gemini-cli-docs"); reflexivity.
Defined.

Lemma validator_ignores_the_tail_witness :
  validate_markdown_content (demo_items 60 +:+ "<html><body>not found</body></html>")
    "a.md" = Return tt.
Proof.
  apply validator_ignores_the_tail.
  - vm_compute. reflexivity.
  - vm_compute. lia.
  - vm_compute. lia.
Defined.

Lemma load_manifest_returns_a_mapping_or_an_odd_value_witness :
  load_manifest demo_loads_string {[ MANIFEST_FILE := "all files" ]} =
  ([], JStr "all files").
Proof.
  destruct (load_manifest_returns_a_mapping_or_an_odd_value demo_loads_string
              {[ MANIFEST_FILE := "all files" ]}) as (_ & _ & H).
  apply (H "all files"); reflexivity.
Defined.
